(** * Gesture controller of the christmas-tree scene

    A shallow embedding of [src/components/GestureController.tsx]: the
    per-frame body of [predictWebcam] (centroid, two-finger test, the two
    frame counters and the mode switch), the scheduling of the next frame,
    and the cleanup of the mounting effect.

    The file holds two versions of the component.  The first reads the mode
    through [modeRef], the second reads the [currentMode] prop captured by
    the closure.  They are embedded separately ([predictFrame] and
    [predictFrame_v2]). *)

From Stdlib Require Import List Arith Bool Lia ZArith QArith Permutation.
From Stdlib Require Import Floats.PrimFloat Numbers.Cyclic.Int63.Uint63.
From Stdlib Require String.
Import String.StringSyntax.
Delimit Scope string_scope with string.
Import ListNotations.
Close Scope Q_scope.
Open Scope nat_scope.

(** ** Numbers

    The arithmetic the component performs on coordinates is [+], [/] by a
    length, [<], and the literals [0] and [0.5].  The embedding is written
    once over this interface; [float_Number] below is the instance the
    program runs on (a JavaScript number is an IEEE 754 binary64). *)

Class Number (num : Type) := {
  add : num -> num -> num;
  div : num -> num -> num;
  ltb : num -> num -> bool;
  of_nat : nat -> num;
  zero : num;
  half : num
}.

#[export] Instance float_Number : Number float := {
  add := PrimFloat.add;
  div := PrimFloat.div;
  ltb := PrimFloat.ltb;
  of_nat := fun n => PrimFloat.of_uint63 (Uint63.of_Z (Z.of_nat n));
  zero := 0%float;
  half := 0.5%float
}.

(** Exact rational arithmetic, used to separate what holds of the formula
    from what holds of its rounded evaluation. *)
#[export] Instance Q_Number : Number Q := {
  add := Qplus;
  div := Qdiv;
  ltb := fun a b => match Qcompare a b with Lt => true | _ => false end;
  of_nat := fun n => inject_Z (Z.of_nat n);
  zero := 0%Q;
  half := (1 # 2)%Q
}.

(** ** Data *)

(** [TreeMode] of [../types]: the two values the component compares with. *)
Inductive TreeMode : Type := FORMED | CHAOS.

Definition TreeMode_eqb (a b : TreeMode) : bool :=
  match a, b with
  | FORMED, FORMED | CHAOS, CHAOS => true
  | _, _ => false
  end.

(** The raw signal of one frame; the source does not name it, it is the
    branch taken at [if (results.landmarks ...)] and [if (indexOpen &&
    middleOpen)]. *)
Inductive RawSignal : Type := OPEN | CLOSED | UNDETERMINED.

(** The three texts passed to [setGestureStatus] inside [predictWebcam]. *)
Inductive Status : Type := StatusChaos | StatusFormed | StatusNoHand.

Inductive LogLine : Type := SwitchingToChaos | SwitchingToFormed.

(** What [landmarker.detectForVideo] did: it threw, or it returned
    [results.landmarks] (a missing and an empty array take the same branch
    and are both [[]] here). *)
Inductive Detection (A : Type) : Type :=
| Throws
| Landmarks (hands : list (list A)).
Arguments Throws {A}.
Arguments Landmarks {A} hands.

(** [openFrames.current] and [closedFrames.current].  They are JavaScript
    numbers that only ever take the values 0, 1, 2, ...; [nat] is exact for
    them below 2^53. *)
Record Counters : Type := mkCounters { openFrames : nat; closedFrames : nat }.

Definition CONFIDENCE_THRESHOLD : nat := 5.

Section Pipeline.

Context {num : Type} `{Number num}.

(** A normalized landmark: [landmark.x], [landmark.y]. *)
Record Landmark : Type := mkLandmark { x : num; y : num }.

(** The observable actions of one call, in program order. *)
Inductive Effect : Type :=
| clearRect
| setHandDetected (b : bool)
| drawHand (landmarks : list Landmark)
| onHandPosition (px py : num) (detected : bool)
| onModeChange (m : TreeMode)
| setGestureStatus (s : Status)
| consoleLog (l : LogLine)
| consoleError
| setTimeout (ms : nat).

(** [let centerX = 0; let centerY = 0; for (...) { centerX += landmark.x;
    centerY += landmark.y }]. *)
Definition accumulate (landmarks : list Landmark) : num * num :=
  fold_left (fun c landmark => (add (fst c) (x landmark), add (snd c) (y landmark)))
            landmarks (zero, zero).

(** [centerX /= landmarks.length; centerY /= landmarks.length]. *)
Definition center (landmarks : list Landmark) : num * num :=
  let c := accumulate landmarks in
  (div (fst c) (of_nat (length landmarks)), div (snd c) (of_nat (length landmarks))).

(** [if (onHandPosition) onHandPosition(...)]: the prop is optional. *)
Definition callHandPosition (hasHandPosition : bool) (px py : num) (detected : bool)
  : list Effect :=
  if hasHandPosition then [onHandPosition px py detected] else [].

(** [indexTip.y < indexPIP.y] and [middleTip.y < middlePIP.y].  Reading [.y]
    of an index past the end of the array is a TypeError: [None]. *)
Definition fingers (landmarks : list Landmark) : option (bool * bool) :=
  match nth_error landmarks 8, nth_error landmarks 6,
        nth_error landmarks 12, nth_error landmarks 10 with
  | Some indexTip, Some indexPIP, Some middleTip, Some middlePIP =>
      Some (ltb (y indexTip) (y indexPIP), ltb (y middleTip) (y middlePIP))
  | _, _, _, _ => None
  end.

(** The [catch] block. *)
Definition catchBlock : list Effect := [consoleError; clearRect].

(** *** First version: the mode is read from [modeRef.current] *)

(** The [if (indexOpen && middleOpen) { ... } else { ... }] statement. *)
Definition countFrames (modeRef : TreeMode) (c : Counters) (indexOpen middleOpen : bool)
  : Counters * list Effect :=
  if indexOpen && middleOpen then
    let c1 := mkCounters (S (openFrames c)) 0 in
    if (CONFIDENCE_THRESHOLD <? openFrames c1) && TreeMode_eqb modeRef FORMED then
      (mkCounters 0 (closedFrames c1),
       [onModeChange CHAOS; setGestureStatus StatusChaos; consoleLog SwitchingToChaos])
    else (c1, [])
  else
    let c1 := mkCounters 0 (S (closedFrames c)) in
    if (CONFIDENCE_THRESHOLD <? closedFrames c1) && TreeMode_eqb modeRef CHAOS then
      (mkCounters (openFrames c1) 0,
       [onModeChange FORMED; setGestureStatus StatusFormed; consoleLog SwitchingToFormed])
    else (c1, []).

(** The body of [predictWebcam] once the video, the landmarker and the
    canvas are there: clear the canvas, [try] the detection and what follows
    it, [catch], and schedule the next call after 60 ms.  A throw keeps the
    writes made before it: the counters are refs. *)
Definition predictFrame (modeRef : TreeMode) (hasHandPosition : bool)
           (c : Counters) (results : Detection Landmark) : Counters * list Effect :=
  let '(c', tried) :=
    match results with
    | Throws => (c, catchBlock)
    | Landmarks [] =>
        (mkCounters 0 0,
         [setHandDetected false] ++ callHandPosition hasHandPosition half half false
           ++ [setGestureStatus StatusNoHand; clearRect])
    | Landmarks ((landmarks :: _) as hands) =>
        let '(centerX, centerY) := center landmarks in
        let shown := [setHandDetected true] ++ map drawHand hands
                       ++ callHandPosition hasHandPosition centerX centerY true in
        match fingers landmarks with
        | None => (c, shown ++ catchBlock)
        | Some (indexOpen, middleOpen) =>
            let '(c1, switched) := countFrames modeRef c indexOpen middleOpen in
            (c1, shown ++ switched)
        end
    end in
  (c', [clearRect] ++ tried ++ [setTimeout 60]).

(** *** Second version: the mode is the [currentMode] prop of the closure *)

Definition countFrames_v2 (currentMode : TreeMode) (c : Counters)
           (indexOpen middleOpen : bool) : Counters * list Effect :=
  if indexOpen && middleOpen then
    let c1 := mkCounters (S (openFrames c)) 0 in
    if (CONFIDENCE_THRESHOLD <? openFrames c1) && TreeMode_eqb currentMode FORMED then
      (mkCounters 0 (closedFrames c1),
       [onModeChange CHAOS; setGestureStatus StatusChaos; consoleLog SwitchingToChaos])
    else (c1, [])
  else
    let c1 := mkCounters 0 (S (closedFrames c)) in
    if (CONFIDENCE_THRESHOLD <? closedFrames c1) && TreeMode_eqb currentMode CHAOS then
      (mkCounters (openFrames c1) 0,
       [onModeChange FORMED; setGestureStatus StatusFormed; consoleLog SwitchingToFormed])
    else (c1, []).

Definition predictFrame_v2 (currentMode : TreeMode) (hasHandPosition : bool)
           (c : Counters) (results : Detection Landmark) : Counters * list Effect :=
  let '(c', tried) :=
    match results with
    | Throws => (c, [consoleError; clearRect])
    | Landmarks [] =>
        (mkCounters 0 0,
         [setHandDetected false] ++ callHandPosition hasHandPosition half half false
           ++ [setGestureStatus StatusNoHand; clearRect])
    | Landmarks ((landmarks :: _) as hands) =>
        let '(centerX, centerY) := center landmarks in
        let shown := [setHandDetected true] ++ map drawHand hands
                       ++ callHandPosition hasHandPosition centerX centerY true in
        match fingers landmarks with
        | None => (c, shown ++ [consoleError; clearRect])
        | Some (indexOpen, middleOpen) =>
            let '(c1, switched) := countFrames_v2 currentMode c indexOpen middleOpen in
            (c1, shown ++ switched)
        end
    end in
  (c', [clearRect] ++ tried ++ [setTimeout 60]).

(** ** What a frame means

    Readings of one call used to state properties. *)

(** The raw signal of a detection result; [None] when the call ends in the
    [catch] block. *)
Definition rawSignal (results : Detection Landmark) : option RawSignal :=
  match results with
  | Throws => None
  | Landmarks [] => Some UNDETERMINED
  | Landmarks (landmarks :: _) =>
      match fingers landmarks with
      | None => None
      | Some (indexOpen, middleOpen) =>
          Some (if indexOpen && middleOpen then OPEN else CLOSED)
      end
  end.

Definition pointerUpdates (es : list Effect) : list (num * num * bool) :=
  flat_map (fun e => match e with
                     | onHandPosition px py d => [(px, py, d)]
                     | _ => []
                     end) es.

Definition modeChanges (es : list Effect) : list TreeMode :=
  flat_map (fun e => match e with onModeChange m => [m] | _ => [] end) es.

Definition isSetTimeout (e : Effect) : bool :=
  match e with setTimeout _ => true | _ => false end.

(** At most one counter is non-zero. *)
Definition exclusive (c : Counters) : Prop := openFrames c = 0 \/ closedFrames c = 0.

(** ** The component inside [App]

    [App] owns the mode ([useState(TreeMode.FORMED)]) and passes [setMode]
    as [onModeChange]; the effect [modeRef.current = currentMode] runs on
    the re-render that follows.  A next frame starts no sooner than 60 ms
    later, so it reads the mode set by the frame before it. *)

Definition setMode (mode : TreeMode) (es : list Effect) : TreeMode :=
  fold_left (fun m e => match e with onModeChange m' => m' | _ => m end) es mode.

Definition frame (hasHandPosition : bool) (s : TreeMode * Counters)
           (results : Detection Landmark) : (TreeMode * Counters) * list Effect :=
  let '(c', es) := predictFrame (fst s) hasHandPosition (snd s) results in
  ((setMode (fst s) es, c'), es).

(** The states after each frame of a stream, with the effects of the frame. *)
Fixpoint frames (hasHandPosition : bool) (s : TreeMode * Counters)
         (stream : list (Detection Landmark))
  : list ((TreeMode * Counters) * list Effect) :=
  match stream with
  | [] => []
  | results :: stream' =>
      let r := frame hasHandPosition s results in
      r :: frames hasHandPosition (fst r) stream'
  end.

(** The mode switches of a run, each with the (1-based) number of the frame
    that made it. *)
Fixpoint switches (k : nat) (run : list ((TreeMode * Counters) * list Effect))
  : list (nat * TreeMode) :=
  match run with
  | [] => []
  | (_, es) :: run' => map (pair k) (modeChanges es) ++ switches (S k) run'
  end.

(** ** Scheduling and cleanup

    The refs of the component together with the two browser queues the loop
    lives in: frames requested with [requestAnimationFrame] and callbacks
    pending in [setTimeout]. *)

(** [videoRef.current]: its [readyState] and its [srcObject], a media stream
    given by the identifiers of its tracks. *)
Record Video : Type := mkVideo { readyState : nat; srcObject : option (list nat) }.

Record Page : Type := mkPage {
  videoRef : option Video;
  canvasRef : option bool;          (* the canvas; [true] when [getContext("2d")] gives a context *)
  handLandmarkerRef : option nat;
  animationFrameIdRef : option nat;
  modeRef : TreeMode;
  hasHandPosition : bool;
  counters : Counters;
  animationFrames : list nat;       (* handles of the requested frames, oldest first *)
  timeouts : nat;                   (* pending [setTimeout(..., 60)] callbacks *)
  lastHandle : nat;                 (* handles are fresh and greater than zero *)
  calls : nat                       (* how many times [predictWebcam] was entered *)
}.

(** [animationFrameIdRef.current = requestAnimationFrame(predictWebcam)]. *)
Definition requestAnimationFrame (p : Page) : Page :=
  let h := S (lastHandle p) in
  mkPage (videoRef p) (canvasRef p) (handLandmarkerRef p) (Some h) (modeRef p)
         (hasHandPosition p) (counters p) (animationFrames p ++ [h]) (timeouts p) h (calls p).

Definition entered (p : Page) : Page :=
  mkPage (videoRef p) (canvasRef p) (handLandmarkerRef p) (animationFrameIdRef p) (modeRef p)
         (hasHandPosition p) (counters p) (animationFrames p) (timeouts p) (lastHandle p)
         (S (calls p)).

(** One call of [predictWebcam]; [results] is what [detectForVideo] does if
    it is reached. *)
Definition predictWebcam (p0 : Page) (results : Detection Landmark) : Page :=
  let p := entered p0 in
  match videoRef p, handLandmarkerRef p, canvasRef p with
  | Some videoElement, Some _, Some canvasCtx =>
      if readyState videoElement <? 2 then requestAnimationFrame p
      else if negb canvasCtx then requestAnimationFrame p
      else
        let '(c', es) := predictFrame (modeRef p) (hasHandPosition p) (counters p) results in
        mkPage (videoRef p) (canvasRef p) (handLandmarkerRef p) (animationFrameIdRef p)
               (setMode (modeRef p) es) (hasHandPosition p) c' (animationFrames p)
               (timeouts p + length (filter isSetTimeout es)) (lastHandle p) (calls p)
  | _, _, _ => requestAnimationFrame p
  end.

(** What the cleanup asks of the browser and of the landmarker. *)
Inductive Release : Type :=
| cancelAnimationFrame (handle : nat)
| closeLandmarker (landmarker : nat)
| stopTrack (track : nat).

Definition stopStream (v : option Video) : option Video * list Release :=
  match v with
  | Some video =>
      match srcObject video with
      | Some tracks => (Some (mkVideo (readyState video) None), map stopTrack tracks)
      | None => (v, [])
      end
  | None => (v, [])
  end.

(** The function returned by the mounting effect.  The three [if]s test for
    truthiness: [null] and the number 0 are skipped. *)
Definition cleanup (p : Page) : Page * list Release :=
  let '(frames, r1) :=
    match animationFrameIdRef p with
    | Some (S h) => (remove Nat.eq_dec (S h) (animationFrames p), [cancelAnimationFrame (S h)])
    | _ => (animationFrames p, [])
    end in
  let '(landmarker, r2) :=
    match handLandmarkerRef p with
    | Some l => (None, [closeLandmarker l])
    | None => (None, [])
    end in
  let '(video, r3) := stopStream (videoRef p) in
  (mkPage video (canvasRef p) landmarker (animationFrameIdRef p) (modeRef p)
          (hasHandPosition p) (counters p) frames (timeouts p) (lastHandle p) (calls p),
   r1 ++ r2 ++ r3).

(** What can happen to a mounted page. *)
Inductive Event : Type :=
| timeoutFires
| animationFrameFires (results : Detection Landmark)
| cleanupRuns.

Definition step (p : Page) (e : Event) : Page :=
  match e with
  | timeoutFires =>
      match timeouts p with
      | O => p
      | S n =>
          requestAnimationFrame
            (mkPage (videoRef p) (canvasRef p) (handLandmarkerRef p) (animationFrameIdRef p)
                    (modeRef p) (hasHandPosition p) (counters p) (animationFrames p) n
                    (lastHandle p) (calls p))
      end
  | animationFrameFires results =>
      match animationFrames p with
      | [] => p
      | _ :: waiting =>
          predictWebcam
            (mkPage (videoRef p) (canvasRef p) (handLandmarkerRef p) (animationFrameIdRef p)
                    (modeRef p) (hasHandPosition p) (counters p) waiting (timeouts p)
                    (lastHandle p) (calls p))
            results
      end
  | cleanupRuns => fst (cleanup p)
  end.

Definition steps (p : Page) (es : list Event) : Page := fold_left step es p.

Definition isResourceRelease (r : Release) : bool :=
  match r with
  | cancelAnimationFrame _ => false
  | closeLandmarker _ | stopTrack _ => true
  end.

Definition tracksOf (p : Page) : list nat :=
  match videoRef p with
  | Some video => match srcObject video with Some tracks => tracks | None => [] end
  | None => []
  end.

(** The page right after [startWebcam] found the video loaded and before it
    calls [predictWebcam()]: everything is set up and nothing is queued. *)
Definition started : Page :=
  mkPage (Some (mkVideo 4 (Some [1]))) (Some true) (Some 1) None FORMED true
         (mkCounters 0 0) [] 0 0 0.

(** The page before [setup] has done anything. *)
Definition mounted : Page :=
  mkPage (Some (mkVideo 0 None)) (Some true) None None FORMED true
         (mkCounters 0 0) [] 0 0 0.

End Pipeline.

Arguments Landmark num : clear implicits.
Arguments Effect num : clear implicits.

(** ** Concrete hands (binary64 coordinates)

    Index 6 and 10 are the PIP joints, 8 and 12 the tips of the index and
    middle finger.  Smaller [y] is higher in the picture. *)

Definition at_ (px py : float) : Landmark float := mkLandmark px py.

Definition openHand : list (Landmark float) :=
  repeat (at_ 0.5 0.5) 8 ++ [at_ 0.5 0.25] ++ repeat (at_ 0.5 0.5) 3
    ++ [at_ 0.5 0.25] ++ repeat (at_ 0.5 0.5) 8.

Definition closedHand : list (Landmark float) :=
  repeat (at_ 0.5 0.5) 8 ++ [at_ 0.5 0.75] ++ repeat (at_ 0.5 0.5) 3
    ++ [at_ 0.5 0.75] ++ repeat (at_ 0.5 0.5) 8.

(** The index finger up, the middle finger down. *)
Definition oneFingerHand : list (Landmark float) :=
  repeat (at_ 0.5 0.5) 8 ++ [at_ 0.5 0.25] ++ repeat (at_ 0.5 0.5) 3
    ++ [at_ 0.5 0.75] ++ repeat (at_ 0.5 0.5) 8.

(** Two hands with the same 21 landmarks in a different order: the first
    three are exchanged.  [0x1p-53] is 2^-53, half the gap between 1 and the
    next binary64 above it. *)
Definition handA : list (Landmark float) :=
  [at_ 1 0.5; at_ 0x1p-53 0.5; at_ 0x1p-53 0.5] ++ repeat (at_ 0 0.5) 18.

Definition handB : list (Landmark float) :=
  [at_ 0x1p-53 0.5; at_ 0x1p-53 0.5; at_ 1 0.5] ++ repeat (at_ 0 0.5) 18.

(** The same two hands in exact rational arithmetic. *)
Definition handA_Q : list (Landmark Q) :=
  [mkLandmark 1%Q (1 # 2)%Q; mkLandmark (1 # 4)%Q (1 # 2)%Q; mkLandmark (1 # 8)%Q (1 # 2)%Q]
    ++ repeat (mkLandmark 0%Q (1 # 2)%Q) 18.

Definition handB_Q : list (Landmark Q) :=
  [mkLandmark (1 # 8)%Q (1 # 2)%Q; mkLandmark (1 # 4)%Q (1 # 2)%Q; mkLandmark 1%Q (1 # 2)%Q]
    ++ repeat (mkLandmark 0%Q (1 # 2)%Q) 18.

(** A frame showing each of the two hands alone. *)
Definition openFrame : Detection (Landmark float) := Landmarks [openHand].
Definition closedFrame : Detection (Landmark float) := Landmarks [closedHand].

(** ** Mounting: [setup] and [startWebcam]

    The rest of the component: the mounting effect creates the landmarker
    and then starts the camera; [startWebcam] attaches the stream to the
    video and starts the loop, at once or when the video fires
    [loadeddata].  Each function is taken as one step: no other code of the
    component runs between its [await]s. *)

Section Mounting.

Context {num : Type} `{Number num}.

(** The value caught by [catch (err: any)]: [err.name] and [err.message]. *)
Record DOMException : Type := mkException { name : String.string; message : String.string }.

(** The texts [setup] and [startWebcam] pass to [setGestureStatus]. *)
Inductive GestureStatus : Type :=
| WebcamNotSupported            (* Webcam not supported by browser *)
| ReadyShowYourHand             (* Ready - Show your hand *)
| PleaseAllowCameraAccess       (* Please allow camera access *)
| WebcamError (text : String.string)   (* Webcam error: ... *)
| HandDetectionUnavailable.     (* Hand detection unavailable due to MediaPipe error *)

(** What the browser does during one run of [startWebcam]. *)
Record Camera : Type := mkCamera {
  getUserMedia : option (DOMException + list nat);
      (* [None]: [navigator.mediaDevices?.getUserMedia] is missing;
         otherwise the promise rejects or resolves with a stream *)
  play : option DOMException;   (* [Some err]: [videoRef.current.play()] rejects *)
  loaded : nat                  (* [readyState] once [play()] has resolved *)
}.

(** The page together with the [loadeddata] listeners ([{ once: true }])
    that wait on the video element. *)
Record Mounted : Type := mkMounted { page : Page; loadeddataListeners : nat }.

(** The [catch] block of [startWebcam]. *)
Definition webcamError (err : DOMException) : GestureStatus :=
  if String.eqb (name err) "NotAllowedError"%string then PleaseAllowCameraAccess
  else WebcamError (if String.eqb (message err) String.EmptyString
                    then name err else message err).

Definition withVideo (p : Page) (video : Video) : Page :=
  mkPage (Some video) (canvasRef p) (handLandmarkerRef p) (animationFrameIdRef p) (modeRef p)
         (hasHandPosition p) (counters p) (animationFrames p) (timeouts p) (lastHandle p)
         (calls p).

Definition withLandmarker (p : Page) (landmarker : option nat) : Page :=
  mkPage (videoRef p) (canvasRef p) landmarker (animationFrameIdRef p) (modeRef p)
         (hasHandPosition p) (counters p) (animationFrames p) (timeouts p) (lastHandle p)
         (calls p).

(** [startWebcam] of the first version.  [first] is what [detectForVideo]
    does if [predictWebcam()] is called directly and gets that far. *)
Definition startWebcam (cam : Camera) (first : Detection (Landmark num)) (k : Mounted)
  : Mounted * list GestureStatus :=
  match getUserMedia cam with
  | None => (k, [WebcamNotSupported])
  | Some (inl err) => (k, [webcamError err])
  | Some (inr stream) =>
      match videoRef (page k) with
      | None => (k, [])
      | Some video =>
          let attached := withVideo (page k) (mkVideo (readyState video) (Some stream)) in
          match play cam with
          | Some err => (mkMounted attached (loadeddataListeners k), [webcamError err])
          | None =>
              let playing := withVideo (page k) (mkVideo (loaded cam) (Some stream)) in
              if 2 <=? loaded cam
              then (mkMounted (predictWebcam playing first) (loadeddataListeners k),
                    [ReadyShowYourHand])
              else (mkMounted playing (S (loadeddataListeners k)), [ReadyShowYourHand])
          end
      end
  end.

(** [startWebcam] of the second version: it always waits for [loadeddata]. *)
Definition startWebcam_v2 (cam : Camera) (k : Mounted) : Mounted * list GestureStatus :=
  match getUserMedia cam with
  | None => (k, [WebcamNotSupported])
  | Some (inl err) => (k, [webcamError err])
  | Some (inr stream) =>
      match videoRef (page k) with
      | None => (k, [])
      | Some video =>
          let attached := withVideo (page k) (mkVideo (readyState video) (Some stream)) in
          match play cam with
          | Some err => (mkMounted attached (loadeddataListeners k), [webcamError err])
          | None =>
              (mkMounted (withVideo (page k) (mkVideo (loaded cam) (Some stream)))
                         (S (loadeddataListeners k)),
               [ReadyShowYourHand])
          end
      end
  end.

(** [setup] of the mounting effect.  [created] is the landmarker that
    [FilesetResolver.forVisionTasks] and [HandLandmarker.createFromOptions]
    end with, [None] when either rejects. *)
Definition setup (created : option nat) (cam : Camera) (first : Detection (Landmark num))
           (k : Mounted) : Mounted * list GestureStatus :=
  match handLandmarkerRef (page k) with
  | Some _ => (k, [])
  | None =>
      match created with
      | Some landmarker =>
          startWebcam cam first
            (mkMounted (withLandmarker (page k) (Some landmarker)) (loadeddataListeners k))
      | None =>
          (mkMounted (withLandmarker (page k) None) (loadeddataListeners k),
           [HandDetectionUnavailable])
      end
  end.

(** When the component unmounts, React sets the refs of its elements
    ([videoRef.current], [canvasRef.current]) to [null] and only then runs
    the function the mounting effect returned. *)
Definition detachRefs (p : Page) : Page :=
  mkPage None None (handLandmarkerRef p) (animationFrameIdRef p) (modeRef p)
         (hasHandPosition p) (counters p) (animationFrames p) (timeouts p) (lastHandle p)
         (calls p).

Definition unmount (p : Page) : Page * list Release := cleanup (detachRefs p).

(** The video element when it fires [loadeddata]: its [readyState] is
    HAVE_CURRENT_DATA (2) or more. *)
Definition videoLoaded (p : Page) : Page :=
  match videoRef p with
  | Some video => withVideo p (mkVideo (Nat.max 2 (readyState video)) (srcObject video))
  | None => p
  end.

(** What can happen to a mounted component: an event of the loop; the
    video fires [loadeddata] and one waiting listener calls
    [predictWebcam()]; the component unmounts. *)
Inductive MountEvent : Type :=
| loopEvent (e : Event (num:=num))
| loadeddataFires (results : Detection (Landmark num))
| unmounts.

Definition mountStep (k : Mounted) (e : MountEvent) : Mounted :=
  match e with
  | loopEvent e => mkMounted (step (page k) e) (loadeddataListeners k)
  | loadeddataFires results =>
      match loadeddataListeners k with
      | O => mkMounted (videoLoaded (page k)) O
      | S n => mkMounted (predictWebcam (videoLoaded (page k)) results) n
      end
  | unmounts => mkMounted (fst (unmount (page k))) (loadeddataListeners k)
  end.

Definition mountSteps (k : Mounted) (es : list MountEvent) : Mounted :=
  fold_left mountStep es k.

(** The events that run the cleanup. *)
Definition isCleanup (e : MountEvent) : bool :=
  match e with
  | loopEvent cleanupRuns | unmounts => true
  | _ => false
  end.

(** The callbacks that are waiting to run [predictWebcam]: requested
    frames, pending timeouts and [loadeddata] listeners. *)
Definition waiting (k : Mounted) : nat :=
  length (animationFrames (page k)) + timeouts (page k) + loadeddataListeners k.

(** ** One loop of the second version

    A loop re-schedules the very closure it runs, so the [currentMode] it
    compares with is the one of the render that created it, for as long as
    the loop lives. *)
Fixpoint frames_v2 (currentMode : TreeMode) (hasHandPosition : bool) (c : Counters)
         (stream : list (Detection (Landmark num))) : list (Counters * list (Effect num)) :=
  match stream with
  | [] => []
  | results :: stream' =>
      let r := predictFrame_v2 currentMode hasHandPosition c results in
      r :: frames_v2 currentMode hasHandPosition (fst r) stream'
  end.

(** ** [App]: the pointer and the photos *)

(** [handleHandPosition] applied to each [onHandPosition] call of a frame:
    [setHandPosition({ x, y, detected })]. *)
Definition handleHandPosition (handPosition : num * num * bool) (es : list (Effect num))
  : num * num * bool :=
  fold_left (fun h e => match e with onHandPosition px py d => (px, py, d) | _ => h end)
            es handPosition.

(** [handPosition] after the frames of a run. *)
Definition handPositionAfter (handPosition : num * num * bool)
           (run : list ((TreeMode * Counters) * list (Effect num))) : num * num * bool :=
  fold_left (fun h r => handleHandPosition h (snd r)) run handPosition.

(** What a detection result makes of the pointer, if anything. *)
Definition handOf (results : Detection (Landmark num)) : list (num * num * bool) :=
  match results with
  | Throws => []
  | Landmarks [] => [(half, half, false)]
  | Landmarks (landmarks :: _) => [(fst (center landmarks), snd (center landmarks), true)]
  end.

(** ** Reading runs *)

(** The state a run ends in. *)
Definition stateAfter (hp : bool) (s : TreeMode * Counters)
           (stream : list (Detection (Landmark num))) : TreeMode * Counters :=
  last (map fst (frames hp s stream)) s.

(** The count that matters in a state: the one that can switch its mode. *)
Definition counted (s : TreeMode * Counters) : nat :=
  match fst s with
  | FORMED => openFrames (snd s)
  | CHAOS => closedFrames (snd s)
  end.

(** A list of switches, read from mode [m]: each goes to the other mode,
    the first comes at frame [from] or later, and each next one more than
    [CONFIDENCE_THRESHOLD] frames after the one before. *)
Fixpoint hysteresis (from : nat) (m : TreeMode) (l : list (nat * TreeMode)) : Prop :=
  match l with
  | [] => True
  | (i, m') :: l' =>
      from <= i /\ m' <> m /\ hysteresis (i + S CONFIDENCE_THRESHOLD) m' l'
  end.

(** A detection result that is no open hand and does not throw. *)
Definition breaksOpenRun (results : Detection (Landmark num)) : Prop :=
  rawSignal results = Some CLOSED \/ rawSignal results = Some UNDETERMINED.

End Mounting.

(** [handleFileChange] of [UIOverlay] and [handlePhotosUpload] of [App].
    [files] is [e.target.files]; [read file] is the data URL the reader
    loads, [None] when [onload] never fires.  The result is the argument
    [onPhotosUpload] is called with, [None] when it is never called:
    [Promise.all] resolves only when every promise does, and none of them
    can reject. *)
Fixpoint readAll {File : Type} (read : File -> option String.string) (files : list File)
  : option (list String.string) :=
  match files with
  | [] => Some []
  | file :: files' =>
      match read file, readAll read files' with
      | Some url, Some urls => Some (url :: urls)
      | _, _ => None
      end
  end.

Definition handleFileChange {File : Type} (read : File -> option String.string)
           (files : option (list File)) : option (list String.string) :=
  match files with
  | None | Some [] => None
  | Some files => readAll read files
  end.

(** [uploadedPhotos] after a file selection ([handlePhotosUpload] is
    [setUploadedPhotos]), and [hasPhotos]. *)
Definition uploadedPhotosAfter {File : Type} (read : File -> option String.string)
           (uploadedPhotos : list String.string) (files : option (list File))
  : list String.string :=
  match handleFileChange read files with
  | Some photos => photos
  | None => uploadedPhotos
  end.

Definition hasPhotos (uploadedPhotos : list String.string) : bool :=
  0 <? length uploadedPhotos.

(** A camera that grants a stream of two tracks and has the video loaded
    when [play()] resolves; one that is refused; the component on the page
    where nothing was set up; some events. *)
Definition grantingCamera : Camera := mkCamera (Some (inr [7; 8])) None 4.

Definition refusingCamera : Camera :=
  mkCamera (Some (inl (mkException "NotAllowedError"%string "Permission denied"%string)))
           None 0.

Definition justMounted : Mounted := mkMounted mounted 0.

Definition someEvents : list (MountEvent (num:=float)) :=
  [loopEvent timeoutFires; loopEvent (animationFrameFires openFrame);
   loadeddataFires closedFrame; loopEvent timeoutFires;
   loopEvent (animationFrameFires Throws)].

(** The page after the first call of [predictWebcam] and its timeout: one
    frame is requested, its handle is in the ref, no timeout is pending. *)
Definition frameRequested : Page :=
  step (predictWebcam started openFrame) (timeoutFires (num:=float)).

(** * Properties *)

Section Properties.

Context {num : Type} `{Number num}.

Implicit Types (c : Counters) (m : TreeMode) (hp : bool).
Implicit Types (results : Detection (Landmark num)) (es : list (Effect num)).

(** ** Reading the effects of a frame *)

Lemma modeChanges_app es1 es2 :
  modeChanges (es1 ++ es2) = modeChanges es1 ++ modeChanges es2.
Proof. unfold modeChanges. apply flat_map_app. Qed.

Lemma pointerUpdates_app es1 es2 :
  pointerUpdates (es1 ++ es2) = pointerUpdates es1 ++ pointerUpdates es2.
Proof. unfold pointerUpdates. apply flat_map_app. Qed.

Lemma modeChanges_drawHand (hands : list (list (Landmark num))) :
  modeChanges (map drawHand hands) = [].
Proof. induction hands as [|h hands IH]; simpl; auto. Qed.

Lemma pointerUpdates_drawHand (hands : list (list (Landmark num))) :
  pointerUpdates (map drawHand hands) = [].
Proof. induction hands as [|h hands IH]; simpl; auto. Qed.

Lemma modeChanges_callHandPosition hp (a b : num) d :
  modeChanges (callHandPosition hp a b d) = [].
Proof. destruct hp; reflexivity. Qed.

Lemma last_cons_shift (A : Type) (l : list A) : forall a d, last (a :: l) d = last l a.
Proof.
  induction l as [|b l IH]; intros a d; [reflexivity|].
  change (last (a :: b :: l) d) with (last (b :: l) d).
  now rewrite !IH.
Qed.

Lemma setMode_last es : forall m, setMode m es = last (modeChanges es) m.
Proof.
  induction es as [|e es IH]; intro m; [reflexivity|].
  unfold setMode in *. simpl fold_left. rewrite IH.
  destruct e; try reflexivity.
  simpl modeChanges. now rewrite last_cons_shift.
Qed.

(** The effects of the part of the [try] block that precedes the counting. *)
Lemma modeChanges_frame hp (hands : list (list (Landmark num))) (a b : num) es :
  modeChanges ([clearRect] ++ (([setHandDetected true] ++ map drawHand hands
                 ++ callHandPosition hp a b true) ++ es) ++ [setTimeout 60])
  = modeChanges es.
Proof.
  rewrite !modeChanges_app, modeChanges_drawHand, modeChanges_callHandPosition.
  simpl. now rewrite app_nil_r.
Qed.

(** The counters and the mode switch of a frame depend on the detection
    result through its raw signal only. *)
Lemma predictFrame_signal m hp c results :
  let r := predictFrame m hp c results in
  match rawSignal results with
  | None => fst r = c /\ modeChanges (snd r) = []
  | Some UNDETERMINED => fst r = mkCounters 0 0 /\ modeChanges (snd r) = []
  | Some OPEN =>
      fst r = fst (countFrames (num:=num) m c true true)
      /\ modeChanges (snd r) = modeChanges (snd (countFrames (num:=num) m c true true))
  | Some CLOSED =>
      fst r = fst (countFrames (num:=num) m c false false)
      /\ modeChanges (snd r) = modeChanges (snd (countFrames (num:=num) m c false false))
  end.
Proof.
  unfold predictFrame, rawSignal.
  destruct results as [|[|landmarks hands]].
  - split; reflexivity.
  - split; [reflexivity|]. destruct hp; reflexivity.
  - destruct (center landmarks) as [centerX centerY].
    destruct (fingers landmarks) as [[indexOpen middleOpen]|].
    + assert (E : countFrames (num:=num) m c indexOpen middleOpen
                  = countFrames (num:=num) m c (indexOpen && middleOpen)
                                (indexOpen && middleOpen)).
      { destruct indexOpen, middleOpen; reflexivity. }
      rewrite E; clear E.
      destruct (indexOpen && middleOpen);
        match goal with
        | |- context [countFrames ?a ?b ?i ?j] =>
            destruct (countFrames (num:=num) a b i j) as [c1 switched]
        end;
        (split; [reflexivity|]);
        cbn [snd]; apply (modeChanges_frame hp (landmarks :: hands)).
    + split; [reflexivity|].
      apply (modeChanges_frame hp (landmarks :: hands) centerX centerY catchBlock).
Qed.

(** ** Runs of equal frames *)

Lemma frame_open hp m c results :
  rawSignal results = Some OPEN ->
  let guard := (CONFIDENCE_THRESHOLD <? S (openFrames c)) && TreeMode_eqb m FORMED in
  fst (frame hp (m, c) results)
  = (if guard then (CHAOS, mkCounters 0 0) else (m, mkCounters (S (openFrames c)) 0))
  /\ modeChanges (snd (frame hp (m, c) results)) = (if guard then [CHAOS] else []).
Proof.
  intros Hsig guard. unfold frame. cbn [fst snd].
  pose proof (predictFrame_signal m hp c results) as P. cbv zeta in P.
  rewrite Hsig in P. destruct P as [Pc Pm].
  destruct (predictFrame m hp c results) as [c' es]. cbn [fst snd] in *.
  rewrite setMode_last, Pm, Pc. unfold countFrames. cbn [andb openFrames closedFrames].
  fold guard. destruct guard; split; reflexivity.
Qed.

Lemma frame_closed hp m c results :
  rawSignal results = Some CLOSED ->
  let guard := (CONFIDENCE_THRESHOLD <? S (closedFrames c)) && TreeMode_eqb m CHAOS in
  fst (frame hp (m, c) results)
  = (if guard then (FORMED, mkCounters 0 0) else (m, mkCounters 0 (S (closedFrames c))))
  /\ modeChanges (snd (frame hp (m, c) results)) = (if guard then [FORMED] else []).
Proof.
  intros Hsig guard. unfold frame. cbn [fst snd].
  pose proof (predictFrame_signal m hp c results) as P. cbv zeta in P.
  rewrite Hsig in P. destruct P as [Pc Pm].
  destruct (predictFrame m hp c results) as [c' es]. cbn [fst snd] in *.
  rewrite setMode_last, Pm, Pc. unfold countFrames. cbn [andb openFrames closedFrames].
  fold guard. destruct guard; split; reflexivity.
Qed.

Lemma frames_cons hp s results stream :
  frames hp s (results :: stream)
  = frame hp s results :: frames hp (fst (frame hp s results)) stream.
Proof. reflexivity. Qed.

Lemma switches_cons k (r : (TreeMode * Counters) * list (Effect num)) run :
  switches k (r :: run) = map (pair k) (modeChanges (snd r)) ++ switches (S k) run.
Proof. destruct r; reflexivity. Qed.

(** Take the first frame of a run apart with [frame_open] or [frame_closed]. *)
Ltac first_frame L Hsig :=
  rewrite frames_cons, ?switches_cons;
  let Hs := fresh "Hs" in
  let Hm := fresh "Hm" in
  match goal with
  | |- context [frame ?hp (?m, ?c) ?r] =>
      destruct (L hp m c r Hsig) as [Hs Hm]; cbv zeta in Hs, Hm;
      rewrite ?Hm, Hs; clear Hs Hm
  end.

(** Open hands do nothing to the mode once it is CHAOS. *)
Lemma open_run_in_chaos hp stream : forall c k,
  Forall (fun results => rawSignal results = Some OPEN) stream ->
  switches k (frames hp (CHAOS, c) stream) = [].
Proof.
  induction stream as [|results stream IH]; intros c k Hall; [reflexivity|].
  inversion Hall as [|? ? Hsig Hrest]; subst.
  first_frame frame_open Hsig.
  cbn [TreeMode_eqb]. rewrite andb_false_r. cbn [map app]. now apply IH.
Qed.

Lemma closed_run_in_formed hp stream : forall c k,
  Forall (fun results => rawSignal results = Some CLOSED) stream ->
  switches k (frames hp (FORMED, c) stream) = [].
Proof.
  induction stream as [|results stream IH]; intros c k Hall; [reflexivity|].
  inversion Hall as [|? ? Hsig Hrest]; subst.
  first_frame frame_closed Hsig.
  cbn [TreeMode_eqb]. rewrite andb_false_r. cbn [map app]. now apply IH.
Qed.

(** From FORMED with [n] open frames counted, the switch comes on the frame
    that takes the count past the threshold, and the count is then 0. *)
Lemma open_run_in_formed hp stream : forall n k,
  Forall (fun results => rawSignal results = Some OPEN) stream ->
  n <= CONFIDENCE_THRESHOLD ->
  CONFIDENCE_THRESHOLD - n < length stream ->
  switches k (frames hp (FORMED, mkCounters n 0) stream)
  = [(k + (CONFIDENCE_THRESHOLD - n), CHAOS)]
  /\ nth_error (map fst (frames hp (FORMED, mkCounters n 0) stream))
               (CONFIDENCE_THRESHOLD - n)
     = Some (CHAOS, mkCounters 0 0).
Proof.
  unfold CONFIDENCE_THRESHOLD.
  induction stream as [|results stream IH]; intros n k Hall Hn Hlen;
    [cbn [length] in Hlen; lia|].
  inversion Hall as [|? ? Hsig Hrest]; subst.
  first_frame frame_open Hsig.
  unfold CONFIDENCE_THRESHOLD. cbn [openFrames TreeMode_eqb]. rewrite andb_true_r.
  destruct (Nat.ltb_spec 5 (S n)) as [Hlt|Hge].
  - assert (n = 5) by lia. subst n.
    rewrite open_run_in_chaos by assumption.
    replace (5 - 5) with 0 by lia. rewrite Nat.add_0_r.
    destruct (frame_open hp FORMED (mkCounters 5 0) results Hsig) as [Hs _].
    cbv zeta in Hs. split; [reflexivity|]. cbn [map nth_error]. now rewrite Hs.
  - cbn [length] in Hlen.
    assert (Hn' : S n <= 5) by lia.
    assert (Hlen' : 5 - S n < length stream) by lia.
    destruct (IH (S n) (S k) Hrest Hn' Hlen') as [IH1 IH2].
    rewrite IH1. replace (5 - n) with (S (5 - S n)) by lia.
    split; [cbn [map app]; do 2 f_equal; lia|].
    cbn [map nth_error]. exact IH2.
Qed.

Lemma closed_run_in_chaos hp stream : forall n k,
  Forall (fun results => rawSignal results = Some CLOSED) stream ->
  n <= CONFIDENCE_THRESHOLD ->
  CONFIDENCE_THRESHOLD - n < length stream ->
  switches k (frames hp (CHAOS, mkCounters 0 n) stream)
  = [(k + (CONFIDENCE_THRESHOLD - n), FORMED)]
  /\ nth_error (map fst (frames hp (CHAOS, mkCounters 0 n) stream))
               (CONFIDENCE_THRESHOLD - n)
     = Some (FORMED, mkCounters 0 0).
Proof.
  unfold CONFIDENCE_THRESHOLD.
  induction stream as [|results stream IH]; intros n k Hall Hn Hlen;
    [cbn [length] in Hlen; lia|].
  inversion Hall as [|? ? Hsig Hrest]; subst.
  first_frame frame_closed Hsig.
  unfold CONFIDENCE_THRESHOLD. cbn [closedFrames TreeMode_eqb]. rewrite andb_true_r.
  destruct (Nat.ltb_spec 5 (S n)) as [Hlt|Hge].
  - assert (n = 5) by lia. subst n.
    rewrite closed_run_in_formed by assumption.
    replace (5 - 5) with 0 by lia. rewrite Nat.add_0_r.
    destruct (frame_closed hp CHAOS (mkCounters 0 5) results Hsig) as [Hs _].
    cbv zeta in Hs. split; [reflexivity|]. cbn [map nth_error]. now rewrite Hs.
  - cbn [length] in Hlen.
    assert (Hn' : S n <= 5) by lia.
    assert (Hlen' : 5 - S n < length stream) by lia.
    destruct (IH (S n) (S k) Hrest Hn' Hlen') as [IH1 IH2].
    rewrite IH1. replace (5 - n) with (S (5 - S n)) by lia.
    split; [cbn [map app]; do 2 f_equal; lia|].
    cbn [map nth_error]. exact IH2.
Qed.

(** C1.  From FORMED with both counters 0, a stream of more than
    [CONFIDENCE_THRESHOLD] frames that all show an open hand makes exactly
    one mode switch, to CHAOS, on frame 6; after that frame [openFrames] is
    0; no other frame of the stream switches.  The same holds for closed
    hands from CHAOS, switching to FORMED. *)
Theorem debounce_switches_once hp (opens closeds : list (Detection (Landmark num))) :
  CONFIDENCE_THRESHOLD < length opens ->
  CONFIDENCE_THRESHOLD < length closeds ->
  Forall (fun results => rawSignal results = Some OPEN) opens ->
  Forall (fun results => rawSignal results = Some CLOSED) closeds ->
  (switches 1 (frames hp (FORMED, mkCounters 0 0) opens)
   = [(CONFIDENCE_THRESHOLD + 1, CHAOS)]
   /\ nth_error (map fst (frames hp (FORMED, mkCounters 0 0) opens)) CONFIDENCE_THRESHOLD
      = Some (CHAOS, mkCounters 0 0))
  /\
  (switches 1 (frames hp (CHAOS, mkCounters 0 0) closeds)
   = [(CONFIDENCE_THRESHOLD + 1, FORMED)]
   /\ nth_error (map fst (frames hp (CHAOS, mkCounters 0 0) closeds)) CONFIDENCE_THRESHOLD
      = Some (FORMED, mkCounters 0 0)).
Proof.
  intros Hopens Hcloseds Hopen Hclosed. split.
  - destruct (open_run_in_formed hp opens 0 1 Hopen) as [S1 S2];
      [unfold CONFIDENCE_THRESHOLD; lia | rewrite Nat.sub_0_r; exact Hopens |].
    rewrite Nat.sub_0_r in S1, S2. rewrite S1, S2.
    split; [do 2 f_equal; lia | reflexivity].
  - destruct (closed_run_in_chaos hp closeds 0 1 Hclosed) as [S1 S2];
      [unfold CONFIDENCE_THRESHOLD; lia | rewrite Nat.sub_0_r; exact Hcloseds |].
    rewrite Nat.sub_0_r in S1, S2. rewrite S1, S2.
    split; [do 2 f_equal; lia | reflexivity].
Qed.

(** ** One frame *)

(** C2, as the code has it.  A frame without a hand sets both counters to
    0, whatever the mode and whatever they held, and switches nothing. *)
Theorem no_hand_clears_both_counters m hp c :
  rawSignal (Landmarks ([] : list (list (Landmark num)))) = Some UNDETERMINED
  /\ fst (predictFrame (num:=num) m hp c (Landmarks [])) = mkCounters 0 0
  /\ modeChanges (snd (predictFrame (num:=num) m hp c (Landmarks []))) = [].
Proof.
  split; [reflexivity|]. split; [reflexivity|]. destruct hp; reflexivity.
Qed.

Lemma exclusive_after_frame m hp c results :
  exclusive c -> exclusive (fst (predictFrame m hp c results)).
Proof.
  intro Hc. pose proof (predictFrame_signal m hp c results) as P. cbv zeta in P.
  destruct (rawSignal results) as [[| |]|]; destruct P as [-> _].
  - unfold countFrames. cbn [andb].
    destruct (_ && _); right; reflexivity.
  - unfold countFrames. cbn [andb].
    destruct (_ && _); left; reflexivity.
  - left; reflexivity.
  - exact Hc.
Qed.

Lemma exclusive_along_run hp stream : forall s,
  exclusive (snd s) ->
  Forall (fun r => exclusive (snd (fst r))) (frames hp s stream).
Proof.
  induction stream as [|results stream IH]; intros [m c] Hc; [constructor|].
  rewrite frames_cons.
  assert (E : exclusive (snd (fst (frame hp (m, c) results)))).
  { unfold frame. cbn [fst snd].
    pose proof (exclusive_after_frame m hp c results Hc) as E.
    destruct (predictFrame m hp c results); exact E. }
  constructor; [exact E|]. apply IH. exact E.
Qed.

(** C3.  If at most one counter is non-zero before a frame, at most one is
    non-zero after it: whether the hand is open, closed, absent, or the
    frame ends in the [catch] block.  Hence every state of a run that
    starts with at most one non-zero counter has at most one. *)
Theorem counters_stay_exclusive m hp c results stream :
  exclusive c ->
  exclusive (fst (predictFrame m hp c results))
  /\ Forall (fun r => exclusive (snd (fst r))) (frames hp (m, c) stream).
Proof.
  intro Hc. split.
  - now apply exclusive_after_frame.
  - now apply exclusive_along_run.
Qed.

(** C4.  With a hand of 21 landmarks the four landmarks 8, 6, 12 and 10
    exist, the raw signal is OPEN exactly when [y] at 8 is strictly below
    [y] at 6 and [y] at 12 strictly below [y] at 10, and it is CLOSED in
    every other case.  The frame acts on it: when both comparisons hold it
    takes the open branch ([closedFrames] set to 0, [openFrames] one more,
    or 0 with a switch to CHAOS), in every other case the closed branch
    ([openFrames] set to 0, [closedFrames] one more, or 0 with a switch to
    FORMED). *)
Theorem raw_signal_two_fingers (landmarks : list (Landmark num)) hands m hp c :
  length landmarks = 21 ->
  exists indexTip indexPIP middleTip middlePIP,
    nth_error landmarks 8 = Some indexTip /\ nth_error landmarks 6 = Some indexPIP
    /\ nth_error landmarks 12 = Some middleTip /\ nth_error landmarks 10 = Some middlePIP
    /\ (rawSignal (Landmarks (landmarks :: hands)) = Some OPEN
        <-> ltb (y indexTip) (y indexPIP) = true /\ ltb (y middleTip) (y middlePIP) = true)
    /\ (rawSignal (Landmarks (landmarks :: hands)) = Some OPEN
        \/ rawSignal (Landmarks (landmarks :: hands)) = Some CLOSED)
    /\ let r := predictFrame m hp c (Landmarks (landmarks :: hands)) in
       if ltb (y indexTip) (y indexPIP) && ltb (y middleTip) (y middlePIP)
       then closedFrames (fst r) = 0
            /\ openFrames (fst r)
               = (if (CONFIDENCE_THRESHOLD <? S (openFrames c)) && TreeMode_eqb m FORMED
                  then 0 else S (openFrames c))
            /\ modeChanges (snd r)
               = (if (CONFIDENCE_THRESHOLD <? S (openFrames c)) && TreeMode_eqb m FORMED
                  then [CHAOS] else [])
       else openFrames (fst r) = 0
            /\ closedFrames (fst r)
               = (if (CONFIDENCE_THRESHOLD <? S (closedFrames c)) && TreeMode_eqb m CHAOS
                  then 0 else S (closedFrames c))
            /\ modeChanges (snd r)
               = (if (CONFIDENCE_THRESHOLD <? S (closedFrames c)) && TreeMode_eqb m CHAOS
                  then [FORMED] else []).
Proof.
  intro Hlen.
  assert (G : forall i, i < 21 -> exists l, nth_error landmarks i = Some l).
  { intros i Hi. destruct (nth_error landmarks i) eqn:E; [eauto|].
    apply nth_error_None in E. lia. }
  destruct (G 8) as [indexTip E8]; [lia|].
  destruct (G 6) as [indexPIP E6]; [lia|].
  destruct (G 12) as [middleTip E12]; [lia|].
  destruct (G 10) as [middlePIP E10]; [lia|].
  exists indexTip, indexPIP, middleTip, middlePIP.
  repeat (split; [assumption|]).
  cbv zeta. unfold predictFrame, rawSignal.
  destruct (center landmarks) as [centerX centerY].
  unfold fingers. rewrite E8, E6, E12, E10.
  destruct (ltb (y indexTip) (y indexPIP)), (ltb (y middleTip) (y middlePIP));
    unfold countFrames; cbn [andb openFrames closedFrames];
    match goal with
    | |- context [if ?g then (_, _) else (_, _)] => destruct g
    end;
    cbn [fst snd openFrames closedFrames];
    rewrite (modeChanges_frame hp (landmarks :: hands));
    (split; [split; [intros; try discriminate; auto | intros [? ?]; try discriminate; auto]|]);
    (split; [auto|]); repeat split.
Qed.

(** ** The pointer *)

Lemma accumulate_sums (landmarks : list (Landmark num)) :
  accumulate landmarks
  = (fold_left add (map x landmarks) zero, fold_left add (map y landmarks) zero).
Proof.
  unfold accumulate. generalize (zero (num:=num)) at 1 3 as ax.
  generalize (zero (num:=num)) as ay.
  induction landmarks as [|l landmarks IH]; intros ay ax; [reflexivity|].
  cbn [fold_left map fst snd]. apply IH.
Qed.

(** With an addition that is associative and commutative the sum of a list
    does not depend on its order. *)
Lemma fold_add_Permutation
      (add_comm : forall a b : num, add a b = add b a)
      (add_assoc : forall a b d : num, add a (add b d) = add (add a b) d)
      (l l' : list num) :
  Permutation l l' -> forall a, fold_left add l a = fold_left add l' a.
Proof.
  induction 1 as [|v l l' _ IH|u v l|l l' l'' _ IH1 _ IH2]; intro a; cbn [fold_left].
  - reflexivity.
  - apply IH.
  - f_equal. rewrite <- !add_assoc. f_equal. apply add_comm.
  - now rewrite IH1.
Qed.

Lemma pointerUpdates_frame hp (hands : list (list (Landmark num))) (a b : num) es :
  pointerUpdates es = [] ->
  pointerUpdates ([clearRect] ++ (([setHandDetected true] ++ map drawHand hands
                    ++ callHandPosition hp a b true) ++ es) ++ [setTimeout 60])
  = if hp then [(a, b, true)] else [].
Proof.
  intro Hes.
  rewrite !pointerUpdates_app, pointerUpdates_drawHand, Hes.
  destruct hp; reflexivity.
Qed.

Lemma pointerUpdates_countFrames m c io mo :
  pointerUpdates (snd (countFrames (num:=num) m c io mo)) = [].
Proof.
  unfold countFrames. destruct (io && mo); destruct (_ && _); reflexivity.
Qed.

(** C5, as the code has it.  A frame whose detection returns no hand
    passes exactly (0.5, 0.5, false) to [onHandPosition].  A frame with a
    hand passes the sum of the [x] and the sum of the [y] of the first
    hand, each accumulated from 0 in array order and divided by the number
    of landmarks, with [true].  (Nothing is passed when the prop is
    absent.)  The result is the same for every order of the landmarks when
    [+] is associative and commutative. *)
Theorem pointer_of_frame m hp c :
  pointerUpdates (snd (predictFrame (num:=num) m hp c (Landmarks [])))
  = (if hp then [(half, half, false)] else [])
  /\ (forall landmarks hands,
        pointerUpdates (snd (predictFrame m hp c (Landmarks (landmarks :: hands))))
        = if hp
          then [(div (fold_left add (map x landmarks) zero) (of_nat (length landmarks)),
                 div (fold_left add (map y landmarks) zero) (of_nat (length landmarks)),
                 true)]
          else [])
  /\ ((forall a b : num, add a b = add b a) ->
      (forall a b d : num, add a (add b d) = add (add a b) d) ->
      forall landmarks landmarks' hands hands',
        Permutation landmarks landmarks' ->
        pointerUpdates (snd (predictFrame m hp c (Landmarks (landmarks :: hands))))
        = pointerUpdates (snd (predictFrame m hp c (Landmarks (landmarks' :: hands'))))).
Proof.
  assert (P : forall landmarks hands,
             pointerUpdates (snd (predictFrame m hp c (Landmarks (landmarks :: hands))))
             = if hp
               then [(div (fold_left add (map x landmarks) zero) (of_nat (length landmarks)),
                      div (fold_left add (map y landmarks) zero) (of_nat (length landmarks)),
                      true)]
               else []).
  { intros landmarks hands. unfold predictFrame, center.
    rewrite accumulate_sums. cbn [fst snd].
    destruct (fingers landmarks) as [[indexOpen middleOpen]|].
    - pose proof (pointerUpdates_countFrames m c indexOpen middleOpen) as Hcf.
      destruct (countFrames (num:=num) m c indexOpen middleOpen) as [c1 switched].
      cbn [snd] in *. now apply (pointerUpdates_frame hp (landmarks :: hands)).
    - cbn [snd]. now apply (pointerUpdates_frame hp (landmarks :: hands)). }
  split; [destruct hp; reflexivity|]. split; [exact P|].
  intros add_comm add_assoc landmarks landmarks' hands hands' Hperm.
  rewrite !P.
  rewrite (fold_add_Permutation add_comm add_assoc
             (map x landmarks) (map x landmarks') (Permutation_map x Hperm)).
  rewrite (fold_add_Permutation add_comm add_assoc
             (map y landmarks) (map y landmarks') (Permutation_map y Hperm)).
  now rewrite (Permutation_length Hperm).
Qed.

(** ** The counters *)

(** C6, as the code has it.  An open hand adds 1 to [openFrames] and sets
    [closedFrames] to 0; a closed hand adds 1 to [closedFrames] and sets
    [openFrames] to 0; in both cases the counter just incremented is set
    back to 0 only when it exceeds the threshold in the mode it switches
    away from.  No hand sets both to 0; a frame that throws leaves both. *)
Theorem counters_after_frame m hp c results :
  let c' := fst (predictFrame m hp c results) in
  match rawSignal results with
  | Some OPEN =>
      closedFrames c' = 0
      /\ openFrames c' = (if (CONFIDENCE_THRESHOLD <? S (openFrames c)) && TreeMode_eqb m FORMED
                          then 0 else S (openFrames c))
  | Some CLOSED =>
      openFrames c' = 0
      /\ closedFrames c' = (if (CONFIDENCE_THRESHOLD <? S (closedFrames c)) && TreeMode_eqb m CHAOS
                            then 0 else S (closedFrames c))
  | Some UNDETERMINED => c' = mkCounters 0 0
  | None => c' = c
  end.
Proof.
  pose proof (predictFrame_signal m hp c results) as P. cbv zeta in *.
  destruct (rawSignal results) as [[| |]|]; destruct P as [-> _];
    try reflexivity;
    unfold countFrames; cbn [andb openFrames closedFrames];
    destruct (_ && _); split; reflexivity.
Qed.

(** ** A detection that throws *)

(** C7, as the code has it.  When [detectForVideo] throws, the call logs
    the error, clears the canvas, leaves both counters as they were, calls
    neither [onHandPosition] nor [onModeChange], and sets the timeout for
    the next call; the frames that follow run as if the failed one had not
    been there. *)
Theorem throwing_frame m hp c :
  predictFrame (num:=num) m hp c Throws
  = (c, [clearRect; consoleError; clearRect; setTimeout 60])
  /\ pointerUpdates (snd (predictFrame (num:=num) m hp c Throws)) = []
  /\ forall stream,
       frames hp (m, c) (Throws :: stream)
       = ((m, c), [clearRect; consoleError; clearRect; setTimeout 60])
           :: frames hp (m, c) stream.
Proof.
  split; [reflexivity|]. split; [reflexivity|]. intro stream. reflexivity.
Qed.

(** ** The two versions *)

(** C10.  Given the same mode, the same counters and the same detection
    result, the body of [predictWebcam] of the first version and that of
    the second produce the same counters and the same effects in the same
    order. *)
Theorem versions_agree m hp c results :
  predictFrame m hp c results = predictFrame_v2 m hp c results.
Proof.
  unfold predictFrame, predictFrame_v2, countFrames, countFrames_v2, catchBlock.
  destruct results as [|[|landmarks hands]]; reflexivity.
Qed.

(** ** The loop and its cleanup *)

Lemma isSetTimeout_drawHand (hands : list (list (Landmark num))) :
  filter isSetTimeout (map drawHand hands) = [].
Proof. induction hands as [|h hands IH]; simpl; auto. Qed.

(** Every call that gets as far as the detection sets one timeout. *)
Lemma one_timeout_per_frame m hp c results :
  length (filter isSetTimeout (snd (predictFrame m hp c results))) = 1.
Proof.
  unfold predictFrame.
  destruct results as [|[|landmarks hands]].
  - reflexivity.
  - destruct hp; reflexivity.
  - destruct (center landmarks) as [centerX centerY].
    assert (E : forall es,
               filter isSetTimeout es = [] ->
               length (filter isSetTimeout
                 ([clearRect] ++ (([setHandDetected true] ++ map drawHand (landmarks :: hands)
                    ++ callHandPosition hp centerX centerY true) ++ es) ++ [setTimeout 60])) = 1).
    { intros es Hes. rewrite !filter_app, isSetTimeout_drawHand, Hes.
      destruct hp; reflexivity. }
    destruct (fingers landmarks) as [[indexOpen middleOpen]|].
    + assert (Hcf : filter isSetTimeout (snd (countFrames (num:=num) m c indexOpen middleOpen)) = []).
      { unfold countFrames. destruct (indexOpen && middleOpen); destruct (_ && _); reflexivity. }
      destruct (countFrames (num:=num) m c indexOpen middleOpen) as [c1 switched].
      cbn [snd] in *. now apply E.
    + cbn [snd]. now apply E.
Qed.

(** Without a landmarker a frame that fires enters [predictWebcam], which
    requests the next frame at once. *)
Lemma frame_without_landmarker p results h :
  handLandmarkerRef p = None -> animationFrames p = [h] ->
  let p' := step p (animationFrameFires results) in
  handLandmarkerRef p' = None
  /\ animationFrames p' = [S (lastHandle p)]
  /\ calls p' = S (calls p).
Proof.
  intros Hl Hf. cbn [step]. rewrite Hf. unfold predictWebcam, entered.
  cbn [videoRef handLandmarkerRef canvasRef]. rewrite Hl.
  destruct (videoRef p); repeat split.
Qed.

Lemma loop_without_landmarker rs : forall p h,
  handLandmarkerRef p = None -> animationFrames p = [h] ->
  let p' := steps p (map animationFrameFires rs) in
  handLandmarkerRef p' = None
  /\ (exists h', animationFrames p' = [h'])
  /\ calls p' = calls p + length rs.
Proof.
  induction rs as [|results rs IH]; intros p h Hl Hf.
  - cbn. rewrite Nat.add_0_r. eauto.
  - destruct (frame_without_landmarker p results h Hl Hf) as (Hl' & Hf' & Hc').
    cbv zeta in *. unfold steps in *. cbn [map fold_left length].
    destruct (IH _ _ Hl' Hf') as (A & B & C).
    rewrite C, Hc'. repeat split; [exact A | exact B | lia].
Qed.

(** C8 on the code.  [startWebcam] calls [predictWebcam()]; the call ends by
    setting its 60 ms timeout; the cleanup runs while that timeout is
    pending.  The timeout still fires and requests a frame, and from then
    on every frame that fires enters [predictWebcam] again and requests
    the next one: after [length rs] frames the function has been entered
    [length rs] more times and a frame is still waiting. *)
Theorem loop_survives_cleanup (results : Detection (Landmark num))
        (rs : list (Detection (Landmark num))) :
  let stopped := step (predictWebcam started results) cleanupRuns in
  let later := steps stopped (timeoutFires :: map animationFrameFires rs) in
  timeouts stopped = 1 /\ animationFrames stopped = [] /\ handLandmarkerRef stopped = None
  /\ calls later = calls stopped + length rs
  /\ animationFrames later <> [].
Proof.
  cbv zeta.
  assert (E : exists c' md,
             predictWebcam started results
             = mkPage (Some (mkVideo 4 (Some [1]))) (Some true) (Some 1) None md true
                      c' [] 1 0 1).
  { unfold predictWebcam, started, entered.
    cbn [videoRef handLandmarkerRef canvasRef readyState Nat.ltb Nat.leb negb
         modeRef hasHandPosition counters animationFrameIdRef animationFrames timeouts
         lastHandle calls].
    pose proof (one_timeout_per_frame FORMED true (mkCounters 0 0) results) as T.
    destruct (predictFrame FORMED true (mkCounters 0 0) results) as [c' es].
    cbn [snd] in T. rewrite T. eauto. }
  destruct E as (c' & md & ->).
  unfold steps. cbn [fold_left].
  set (stopped := step _ cleanupRuns).
  set (p1 := step stopped timeoutFires).
  assert (H1 : handLandmarkerRef p1 = None) by reflexivity.
  assert (H2 : animationFrames p1 = [1]) by reflexivity.
  destruct (loop_without_landmarker rs p1 1 H1 H2) as (_ & [h' B] & C).
  cbv zeta in *. unfold steps in *.
  repeat split; [exact C | rewrite B; discriminate].
Qed.

(** What the cleanup does cancel: a frame that is requested and waiting
    when it runs, with no timeout pending.  Nothing runs afterwards. *)
Lemma cleanup_cancels_requested_frame p h (evs : list (Event (num:=num))) :
  animationFrameIdRef p = Some (S h) -> animationFrames p = [S h] -> timeouts p = 0 ->
  calls (steps (fst (cleanup p)) evs) = calls p.
Proof.
  intros Hid Hf Ht.
  assert (I : forall (evs : list (Event (num:=num))) q,
             animationFrames q = [] -> timeouts q = 0 -> calls (steps q evs) = calls q).
  { clear. induction evs as [|e evs IH]; intros q Hq Ht; [reflexivity|].
    unfold steps in *. cbn [fold_left].
    destruct e as [| results |].
    - cbn [step]. rewrite Ht. now apply IH.
    - cbn [step]. rewrite Hq. now apply IH.
    - cbn [step]. rewrite IH.
      + unfold cleanup. destruct (animationFrameIdRef q) as [[|?]|];
          destruct (handLandmarkerRef q); destruct (stopStream (videoRef q)); reflexivity.
      + unfold cleanup. rewrite Hq. destruct (animationFrameIdRef q) as [[|?]|];
          destruct (handLandmarkerRef q); destruct (stopStream (videoRef q)); reflexivity.
      + unfold cleanup. destruct (animationFrameIdRef q) as [[|?]|];
          destruct (handLandmarkerRef q); destruct (stopStream (videoRef q)); exact Ht. }
  rewrite I.
  - unfold cleanup. rewrite Hid.
    destruct (handLandmarkerRef p); destruct (stopStream (videoRef p)); reflexivity.
  - unfold cleanup. rewrite Hid, Hf. cbn [remove].
    destruct (Nat.eq_dec (S h) (S h)); [|congruence].
    destruct (handLandmarkerRef p); destruct (stopStream (videoRef p)); reflexivity.
  - unfold cleanup. rewrite Hid.
    destruct (handLandmarkerRef p); destruct (stopStream (videoRef p)); exact Ht.
Qed.

Lemma filter_release_stopTrack tracks :
  filter isResourceRelease (map stopTrack tracks) = map stopTrack tracks.
Proof. induction tracks as [|t tracks IH]; [reflexivity|]. cbn. now rewrite IH. Qed.

(** C9.  Run the cleanup twice in a row.  The second run leaves the page as
    the first left it and neither closes a landmarker nor stops a track;
    over both runs the landmarker held by the ref is closed once and each
    track of the stream is stopped once.  A part that was never set up is
    skipped: no frame id, no cancel and the frame queue untouched; no
    landmarker, no close; no stream, no stop. *)
Theorem cleanup_twice (p : Page) :
  let first := cleanup p in
  let second := cleanup (fst first) in
  fst second = fst first
  /\ filter isResourceRelease (snd second) = []
  /\ filter isResourceRelease (snd first ++ snd second)
     = match handLandmarkerRef p with Some l => [closeLandmarker l] | None => [] end
         ++ map stopTrack (tracksOf p)
  /\ (animationFrameIdRef p = None ->
      animationFrames (fst first) = animationFrames p
      /\ forall h, ~ In (cancelAnimationFrame h) (snd first))
  /\ (handLandmarkerRef p = None -> forall l, ~ In (closeLandmarker l) (snd first))
  /\ (tracksOf p = [] -> forall t, ~ In (stopTrack t) (snd first)).
Proof.
  assert (R : forall q,
             snd (cleanup q)
             = match animationFrameIdRef q with
               | Some (S h) => [cancelAnimationFrame (S h)]
               | _ => []
               end
               ++ match handLandmarkerRef q with Some l => [closeLandmarker l] | None => [] end
               ++ map stopTrack (tracksOf q)).
  { intro q. unfold cleanup, tracksOf, stopStream.
    destruct (animationFrameIdRef q) as [[|h]|]; destruct (handLandmarkerRef q);
      destruct (videoRef q) as [[ready [tracks|]]|]; reflexivity. }
  assert (L : handLandmarkerRef (fst (cleanup p)) = None).
  { unfold cleanup. destruct (animationFrameIdRef p) as [[|h]|]; destruct (handLandmarkerRef p);
      destruct (stopStream (videoRef p)); reflexivity. }
  assert (T : tracksOf (fst (cleanup p)) = []).
  { unfold cleanup, tracksOf, stopStream.
    destruct (animationFrameIdRef p) as [[|h]|]; destruct (handLandmarkerRef p);
      destruct (videoRef p) as [[ready [tracks|]]|]; reflexivity. }
  assert (F : animationFrameIdRef (fst (cleanup p)) = animationFrameIdRef p).
  { unfold cleanup. destruct (animationFrameIdRef p) as [[|h]|]; destruct (handLandmarkerRef p);
      destruct (stopStream (videoRef p)); reflexivity. }
  cbv zeta. repeat apply conj.
  - destruct p as [video canvas landmarker frameId md hp c queue pending lastH n].
    unfold cleanup, stopStream.
    destruct frameId as [[|h]|]; destruct landmarker as [l|];
      destruct video as [[ready [tracks|]]|];
      cbn [fst snd readyState srcObject
           videoRef canvasRef handLandmarkerRef animationFrameIdRef modeRef hasHandPosition
           counters animationFrames timeouts lastHandle calls];
      rewrite ?remove_remove_eq; reflexivity.
  - rewrite R, L, T, F.
    destruct (animationFrameIdRef p) as [[|h]|]; reflexivity.
  - rewrite filter_app, (R (fst (cleanup p))), L, T, F, (R p).
    rewrite !filter_app, filter_release_stopTrack.
    destruct (animationFrameIdRef p) as [[|h]|]; destruct (handLandmarkerRef p);
      cbn [filter isResourceRelease app map]; now rewrite ?app_nil_r.
  - intro E. split.
    + unfold cleanup. rewrite E. destruct (handLandmarkerRef p);
        destruct (stopStream (videoRef p)); reflexivity.
    + intros h Hin. rewrite R, E in Hin. cbn [app] in Hin.
      apply in_app_or in Hin. destruct Hin as [Hin|Hin].
      * destruct (handLandmarkerRef p); cbn [In] in Hin;
          [destruct Hin as [Hin|[]]; discriminate Hin | contradiction].
      * apply in_map_iff in Hin. destruct Hin as (t & Ht & _). discriminate Ht.
  - intros E l Hin. rewrite R, E in Hin. cbn [app] in Hin.
    rewrite app_nil_r in Hin || idtac.
    apply in_app_or in Hin. destruct Hin as [Hin|Hin].
    + destruct (animationFrameIdRef p) as [[|h]|]; cbn [In] in Hin;
        try contradiction. destruct Hin as [Hin|[]]; discriminate Hin.
    + apply in_map_iff in Hin. destruct Hin as (t & Ht & _). discriminate Ht.
  - intros E t Hin. rewrite R, E in Hin. cbn [map] in Hin. rewrite app_nil_r in Hin.
    apply in_app_or in Hin. destruct Hin as [Hin|Hin].
    + destruct (animationFrameIdRef p) as [[|h]|]; cbn [In] in Hin;
        try contradiction. destruct Hin as [Hin|[]]; discriminate Hin.
    + destruct (handLandmarkerRef p); cbn [In] in Hin;
        [destruct Hin as [Hin|[]]; discriminate Hin | contradiction].
Qed.

End Properties.

(** * Instances

    The statements above at concrete hands, and the places where the code
    and its description part. *)

Lemma Qplus_comm_eq (a b : Q) : Qplus a b = Qplus b a.
Proof.
  destruct a as [na da], b as [nb db]. unfold Qplus. cbn [Qnum Qden].
  f_equal; [apply Z.add_comm | apply Pos.mul_comm].
Qed.

Lemma Qplus_assoc_eq (a b d : Q) : Qplus a (Qplus b d) = Qplus (Qplus a b) d.
Proof.
  destruct a as [na da], b as [nb db], d as [nd dd]. unfold Qplus. cbn [Qnum Qden].
  f_equal; [rewrite !Pos2Z.inj_mul; ring | apply Pos.mul_assoc].
Qed.

Lemma handA_handB : Permutation handA handB.
Proof.
  unfold handA, handB. apply Permutation_app_tail.
  eapply perm_trans; [apply perm_swap | apply perm_skip, perm_swap].
Qed.

Lemma handA_handB_Q : Permutation handA_Q handB_Q.
Proof.
  unfold handA_Q, handB_Q. apply Permutation_app_tail.
  eapply perm_trans; [apply perm_swap|].
  eapply perm_trans; [apply perm_skip, perm_swap|].
  apply perm_swap.
Qed.

(** Six open hands and one more, six closed hands and one more. *)
Lemma debounce_switches_once_witness :
  (CONFIDENCE_THRESHOLD < length (repeat openFrame 7)
   /\ CONFIDENCE_THRESHOLD < length (repeat closedFrame 7)
   /\ Forall (fun results => rawSignal results = Some OPEN) (repeat openFrame 7)
   /\ Forall (fun results => rawSignal results = Some CLOSED) (repeat closedFrame 7))
  /\ (switches 1 (frames true (FORMED, mkCounters 0 0) (repeat openFrame 7)) = [(6, CHAOS)]
      /\ nth_error (map fst (frames true (FORMED, mkCounters 0 0) (repeat openFrame 7))) 5
         = Some (CHAOS, mkCounters 0 0))
  /\ (switches 1 (frames true (CHAOS, mkCounters 0 0) (repeat closedFrame 7)) = [(6, FORMED)]
      /\ nth_error (map fst (frames true (CHAOS, mkCounters 0 0) (repeat closedFrame 7))) 5
         = Some (FORMED, mkCounters 0 0)).
Proof.
  assert (H1 : CONFIDENCE_THRESHOLD < length (repeat openFrame 7))
    by (vm_compute; lia).
  assert (H2 : CONFIDENCE_THRESHOLD < length (repeat closedFrame 7))
    by (vm_compute; lia).
  assert (H3 : Forall (fun results => rawSignal results = Some OPEN) (repeat openFrame 7))
    by (repeat constructor).
  assert (H4 : Forall (fun results => rawSignal results = Some CLOSED) (repeat closedFrame 7))
    by (repeat constructor).
  split; [repeat split; assumption|].
  exact (debounce_switches_once true (repeat openFrame 7) (repeat closedFrame 7) H1 H2 H3 H4).
Defined.

(** C2 as stated fails: in FORMED with two closed frames counted, a frame
    without a hand leaves [closedFrames] at 0, not at 3. *)
Lemma no_hand_does_not_count_as_closed :
  let c' := fst (predictFrame (num:=float) FORMED true (mkCounters 0 2) (Landmarks [])) in
  closedFrames c' = 0 /\ closedFrames c' <> 2 + 1.
Proof. cbv zeta. split; [reflexivity | discriminate]. Qed.

Lemma counters_stay_exclusive_witness :
  exclusive (mkCounters 3 0)
  /\ exclusive (fst (predictFrame FORMED true (mkCounters 3 0) closedFrame))
  /\ Forall (fun r => exclusive (snd (fst r)))
            (frames true (FORMED, mkCounters 3 0) [closedFrame; Throws; openFrame]).
Proof.
  assert (Hc : exclusive (mkCounters 3 0)) by (right; reflexivity).
  split; [exact Hc|].
  exact (counters_stay_exclusive FORMED true (mkCounters 3 0) closedFrame
           [closedFrame; Throws; openFrame] Hc).
Defined.

(** A hand with the index finger up and the middle finger down is a
    closed hand: in FORMED with two open frames counted, the frame sets
    [openFrames] to 0 and [closedFrames] to 1. *)
Lemma raw_signal_two_fingers_witness :
  length oneFingerHand = 21
  /\ exists indexTip indexPIP middleTip middlePIP,
       nth_error oneFingerHand 8 = Some indexTip
       /\ nth_error oneFingerHand 6 = Some indexPIP
       /\ nth_error oneFingerHand 12 = Some middleTip
       /\ nth_error oneFingerHand 10 = Some middlePIP
       /\ (rawSignal (Landmarks [oneFingerHand]) = Some OPEN
           <-> ltb (y indexTip) (y indexPIP) = true /\ ltb (y middleTip) (y middlePIP) = true)
       /\ (rawSignal (Landmarks [oneFingerHand]) = Some OPEN
           \/ rawSignal (Landmarks [oneFingerHand]) = Some CLOSED)
       /\ let r := predictFrame FORMED true (mkCounters 2 0) (Landmarks [oneFingerHand]) in
          if ltb (y indexTip) (y indexPIP) && ltb (y middleTip) (y middlePIP)
          then closedFrames (fst r) = 0
               /\ openFrames (fst r)
                  = (if (CONFIDENCE_THRESHOLD <? S (openFrames (mkCounters 2 0)))
                        && TreeMode_eqb FORMED FORMED
                     then 0 else S (openFrames (mkCounters 2 0)))
               /\ modeChanges (snd r)
                  = (if (CONFIDENCE_THRESHOLD <? S (openFrames (mkCounters 2 0)))
                        && TreeMode_eqb FORMED FORMED
                     then [CHAOS] else [])
          else openFrames (fst r) = 0
               /\ closedFrames (fst r)
                  = (if (CONFIDENCE_THRESHOLD <? S (closedFrames (mkCounters 2 0)))
                        && TreeMode_eqb FORMED CHAOS
                     then 0 else S (closedFrames (mkCounters 2 0)))
               /\ modeChanges (snd r)
                  = (if (CONFIDENCE_THRESHOLD <? S (closedFrames (mkCounters 2 0)))
                        && TreeMode_eqb FORMED CHAOS
                     then [FORMED] else []).
Proof.
  assert (Hlen : length oneFingerHand = 21) by reflexivity.
  split; [exact Hlen|].
  exact (raw_signal_two_fingers oneFingerHand [] FORMED true (mkCounters 2 0) Hlen).
Defined.

(** C5 as stated fails on binary64: [handA] and [handB] hold the same 21
    landmarks, all within [0,1]; summing [x] in the order of [handA] gives
    1 (adding 2^-53 to 1 twice rounds back to 1 each time), in the order of
    [handB] it gives 1 + 2^-52; the two pointers differ. *)
Lemma pointer_depends_on_order :
  Permutation handA handB
  /\ length handA = 21
  /\ accumulate handA = (1, 10.5)%float
  /\ accumulate handB = (0x1.0000000000001p+0, 10.5)%float
  /\ pointerUpdates (snd (predictFrame FORMED true (mkCounters 0 0) (Landmarks [handA])))
     <> pointerUpdates (snd (predictFrame FORMED true (mkCounters 0 0) (Landmarks [handB]))).
Proof.
  split; [exact handA_handB|]. split; [reflexivity|].
  split; [vm_compute; reflexivity|]. split; [vm_compute; reflexivity|].
  intro E.
  apply (f_equal (fun l => match l with
                           | [(px, _, _)] => PrimFloat.eqb px (fst (center handA))
                           | _ => false
                           end)) in E.
  vm_compute in E. discriminate E.
Qed.

(** In exact arithmetic the order does not matter. *)
Lemma pointer_of_frame_witness :
  (forall a b : Q, add a b = add b a)
  /\ (forall a b d : Q, add a (add b d) = add (add a b) d)
  /\ Permutation handA_Q handB_Q
  /\ pointerUpdates (snd (predictFrame FORMED true (mkCounters 0 0) (Landmarks [handA_Q])))
     = pointerUpdates (snd (predictFrame FORMED true (mkCounters 0 0) (Landmarks [handB_Q]))).
Proof.
  split; [exact Qplus_comm_eq|]. split; [exact Qplus_assoc_eq|].
  split; [exact handA_handB_Q|].
  exact (proj2 (proj2 (pointer_of_frame FORMED true (mkCounters 0 0)))
               Qplus_comm_eq Qplus_assoc_eq handA_Q handB_Q [] [] handA_handB_Q).
Defined.

(** C6 as stated fails: in FORMED a closed hand is counted, frame after
    frame, although FORMED is the mode it would switch to. *)
Lemma closed_hand_counts_in_formed :
  rawSignal closedFrame = Some CLOSED
  /\ closedFrames (fst (predictFrame FORMED true (mkCounters 0 0) closedFrame)) = 1
  /\ closedFrames (fst (predictFrame FORMED true (mkCounters 0 0) closedFrame)) <> 0
  /\ map (fun r => closedFrames (snd (fst r)))
         (frames true (FORMED, mkCounters 0 0) (repeat closedFrame 8))
     = [1; 2; 3; 4; 5; 6; 7; 8].
Proof.
  split; [reflexivity|]. split; [reflexivity|]. split; [discriminate|]. reflexivity.
Qed.

(** C7 as stated fails: a call whose detection throws calls
    [onHandPosition] zero times, not once. *)
Lemma throwing_frame_has_no_pointer_update :
  length (pointerUpdates
            (snd (predictFrame (num:=float) FORMED true (mkCounters 3 0) Throws))) = 0
  /\ length (pointerUpdates
               (snd (predictFrame (num:=float) FORMED true (mkCounters 3 0) Throws))) <> 1
  /\ ~ In (half, half, false)
          (pointerUpdates
             (snd (predictFrame (num:=float) FORMED true (mkCounters 3 0) Throws))).
Proof.
  split; [reflexivity|]. split; [discriminate|]. intros [].
Qed.

(** The page on which nothing was set up. *)
Lemma cleanup_twice_witness :
  animationFrameIdRef mounted = None /\ handLandmarkerRef mounted = None
  /\ tracksOf mounted = []
  /\ cleanup mounted = (mounted, [])
  /\ (forall h, ~ In (cancelAnimationFrame h) (snd (cleanup mounted)))
  /\ (forall l, ~ In (closeLandmarker l) (snd (cleanup mounted)))
  /\ (forall t, ~ In (stopTrack t) (snd (cleanup mounted))).
Proof.
  pose proof (cleanup_twice mounted) as T. cbv zeta in T.
  destruct T as (_ & _ & _ & A & B & C).
  split; [reflexivity|]. split; [reflexivity|]. split; [reflexivity|].
  split; [reflexivity|].
  split; [exact (proj2 (A eq_refl))|]. split; [exact (B eq_refl) | exact (C eq_refl)].
Defined.

(** * More of the component *)

Section Runs.

Context {num : Type} `{Number num}.

Implicit Types (c : Counters) (m : TreeMode) (hp : bool).
Implicit Types (results : Detection (Landmark num)) (es : list (Effect num)).
Implicit Types (s : TreeMode * Counters) (stream : list (Detection (Landmark num))).

(** ** When a frame switches the mode *)

(** A frame calls [onModeChange] at most once.  It calls it with CHAOS
    exactly when the mode read is FORMED, the hand is open and
    [openFrames] was already at the threshold; with FORMED exactly when the
    mode read is CHAOS, the hand is closed and [closedFrames] was already
    at the threshold.  It never calls it with the mode it read. *)
Theorem switch_needs_threshold m hp c results (m' : TreeMode) :
  length (modeChanges (snd (predictFrame m hp c results))) <= 1
  /\ (In m' (modeChanges (snd (predictFrame m hp c results)))
      <-> (m' = CHAOS /\ m = FORMED /\ rawSignal results = Some OPEN
           /\ CONFIDENCE_THRESHOLD <= openFrames c)
          \/ (m' = FORMED /\ m = CHAOS /\ rawSignal results = Some CLOSED
              /\ CONFIDENCE_THRESHOLD <= closedFrames c)).
Proof.
  pose proof (predictFrame_signal m hp c results) as P. cbv zeta in P.
  destruct (rawSignal results) as [[| |]|]; destruct P as [_ ->];
    unfold countFrames, CONFIDENCE_THRESHOLD; cbn [andb openFrames closedFrames].
  - destruct (Nat.ltb_spec 5 (S (openFrames c))); destruct m; cbn;
      (split; [lia|]); split;
      try (intros [<-|[]]); try (intros []); intuition (try congruence; try lia).
  - destruct (Nat.ltb_spec 5 (S (closedFrames c))); destruct m; cbn;
      (split; [lia|]); split;
      try (intros [<-|[]]); try (intros []); intuition (try congruence; try lia).
  - cbn. split; [lia|]. split; [intros [] | intuition congruence].
  - cbn. split; [lia|]. split; [intros [] | intuition congruence].
Qed.

(** ** Where a run goes *)

Lemma last_app_shift (A : Type) (l1 l2 : list A) : forall d,
  last (l1 ++ l2) d = last l2 (last l1 d).
Proof.
  induction l1 as [|a l1 IH]; intro d; [reflexivity|].
  rewrite <- app_comm_cons, !last_cons_shift. apply IH.
Qed.

Lemma frame_quiet hp m c results :
  rawSignal results = Some UNDETERMINED \/ rawSignal results = None ->
  fst (frame hp (m, c) results)
  = (m, match rawSignal results with Some _ => mkCounters 0 0 | None => c end)
  /\ modeChanges (snd (frame hp (m, c) results)) = [].
Proof.
  intros Hsig. unfold frame. cbn [fst snd].
  pose proof (predictFrame_signal m hp c results) as P. cbv zeta in P.
  destruct (predictFrame m hp c results) as [c' es]. cbn [fst snd] in *.
  rewrite setMode_last.
  destruct Hsig as [E|E]; rewrite E in *; destruct P as [-> ->]; split; reflexivity.
Qed.

Lemma stateAfter_cons hp s results stream :
  stateAfter hp s (results :: stream) = stateAfter hp (fst (frame hp s results)) stream.
Proof. unfold stateAfter. rewrite frames_cons. cbn [map]. apply last_cons_shift. Qed.

Lemma frames_app hp a : forall s b,
  frames hp s (a ++ b) = frames hp s a ++ frames hp (stateAfter hp s a) b.
Proof.
  induction a as [|results a IH]; intros s b; [reflexivity|].
  rewrite <- app_comm_cons, !frames_cons, IH, stateAfter_cons. reflexivity.
Qed.

Lemma switches_app (r1 r2 : list ((TreeMode * Counters) * list (Effect num))) : forall k,
  switches k (r1 ++ r2) = switches k r1 ++ switches (k + length r1) r2.
Proof.
  induction r1 as [|r r1 IH]; intro k.
  - cbn. now rewrite Nat.add_0_r.
  - rewrite <- app_comm_cons, !switches_cons, IH, app_assoc.
    cbn [length]. now rewrite Nat.add_succ_r.
Qed.

Lemma frames_length hp stream : forall s, length (frames hp s stream) = length stream.
Proof.
  induction stream as [|results stream IH]; intro s; [reflexivity|].
  rewrite frames_cons. cbn [length]. now rewrite IH.
Qed.

Lemma hysteresis_earlier (l : list (nat * TreeMode)) from from' m :
  from' <= from -> hysteresis from m l -> hysteresis from' m l.
Proof.
  destruct l as [|[i m'] l]; [trivial|].
  cbn [hysteresis]. intros Hle (Hi & Hm & Hl). repeat split; [lia | exact Hm | exact Hl].
Qed.

(** In every run each switch goes to the other mode, and a switch comes
    more than [CONFIDENCE_THRESHOLD] frames after the switch before it: the
    mode cannot change twice within six frames.  The first switch of a run
    comes no sooner than the count still missing to the threshold. *)
Theorem switches_keep_distance hp stream : forall s k,
  hysteresis (k + (CONFIDENCE_THRESHOLD - counted s)) (fst s)
             (switches k (frames hp s stream)).
Proof.
  unfold CONFIDENCE_THRESHOLD.
  induction stream as [|results stream IH]; intros [m c] k; [exact I|].
  rewrite frames_cons, switches_cons.
  destruct (rawSignal results) as [[| |]|] eqn:Hsig.
  - destruct (frame_open hp m c results Hsig) as [Hs Hm]. cbv zeta in Hs, Hm.
    unfold CONFIDENCE_THRESHOLD in Hs, Hm. rewrite Hm, Hs. clear Hs Hm.
    destruct m; cbn [TreeMode_eqb]; rewrite ?andb_true_r, ?andb_false_r.
    + destruct (Nat.ltb_spec 5 (S (openFrames c))) as [Hlt|Hge]; cbn [map app].
      * cbn [hysteresis fst]. unfold counted, CONFIDENCE_THRESHOLD. cbn [fst snd].
        repeat split; [lia | discriminate |].
        apply (hysteresis_earlier _ (S k + (5 - counted (CHAOS, mkCounters 0 0))));
          [cbn; lia | exact (IH (CHAOS, mkCounters 0 0) (S k))].
      * apply (hysteresis_earlier _ (S k + (5 - counted (FORMED, mkCounters (S (openFrames c)) 0))));
          [unfold counted; cbn [fst snd openFrames]; lia | exact (IH (FORMED, mkCounters (S (openFrames c)) 0) (S k))].
    + cbn [map app].
      apply (hysteresis_earlier _ (S k + (5 - counted (CHAOS, mkCounters (S (openFrames c)) 0))));
        [unfold counted; cbn [fst snd closedFrames]; lia | exact (IH (CHAOS, mkCounters (S (openFrames c)) 0) (S k))].
  - destruct (frame_closed hp m c results Hsig) as [Hs Hm]. cbv zeta in Hs, Hm.
    unfold CONFIDENCE_THRESHOLD in Hs, Hm. rewrite Hm, Hs. clear Hs Hm.
    destruct m; cbn [TreeMode_eqb]; rewrite ?andb_true_r, ?andb_false_r.
    + cbn [map app].
      apply (hysteresis_earlier _ (S k + (5 - counted (FORMED, mkCounters 0 (S (closedFrames c))))));
        [unfold counted; cbn [fst snd openFrames]; lia | exact (IH (FORMED, mkCounters 0 (S (closedFrames c))) (S k))].
    + destruct (Nat.ltb_spec 5 (S (closedFrames c))) as [Hlt|Hge]; cbn [map app].
      * cbn [hysteresis fst]. unfold counted, CONFIDENCE_THRESHOLD. cbn [fst snd].
        repeat split; [lia | discriminate |].
        apply (hysteresis_earlier _ (S k + (5 - counted (FORMED, mkCounters 0 0))));
          [cbn; lia | exact (IH (FORMED, mkCounters 0 0) (S k))].
      * apply (hysteresis_earlier _ (S k + (5 - counted (CHAOS, mkCounters 0 (S (closedFrames c))))));
          [unfold counted; cbn [fst snd closedFrames]; lia | exact (IH (CHAOS, mkCounters 0 (S (closedFrames c))) (S k))].
  - destruct (frame_quiet hp m c results (or_introl Hsig)) as [Hs Hm].
    rewrite Hm, Hs, Hsig. cbn [map app].
    apply (hysteresis_earlier _ (S k + (5 - counted (m, mkCounters 0 0))));
      [unfold counted; destruct m; cbn [fst snd openFrames closedFrames]; lia | exact (IH (m, mkCounters 0 0) (S k))].
  - destruct (frame_quiet hp m c results (or_intror Hsig)) as [Hs Hm].
    rewrite Hm, Hs, Hsig. cbn [map app].
    apply (hysteresis_earlier _ (S k + (5 - counted (m, c)))); [lia | exact (IH (m, c) (S k))].
Qed.

(** ** Runs that are cut short *)

Lemma short_open_run hp b : forall c k,
  Forall (fun results => rawSignal results = Some OPEN) b ->
  openFrames c + length b <= CONFIDENCE_THRESHOLD ->
  switches k (frames hp (FORMED, c) b) = []
  /\ fst (stateAfter hp (FORMED, c) b) = FORMED
  /\ openFrames (snd (stateAfter hp (FORMED, c) b)) = openFrames c + length b.
Proof.
  unfold CONFIDENCE_THRESHOLD.
  induction b as [|results b IH]; intros c k Hall Hlen.
  - cbn. repeat split. lia.
  - inversion Hall as [|? ? Hsig Hrest]; subst. cbn [length] in Hlen.
    rewrite frames_cons, switches_cons, stateAfter_cons.
    destruct (frame_open hp FORMED c results Hsig) as [Hs Hm]. cbv zeta in Hs, Hm.
    unfold CONFIDENCE_THRESHOLD in Hs, Hm. cbn [TreeMode_eqb] in Hs, Hm.
    rewrite andb_true_r in Hs, Hm.
    destruct (Nat.ltb_spec 5 (S (openFrames c))); [lia|].
    rewrite Hm, Hs. cbn [map app].
    destruct (IH (mkCounters (S (openFrames c)) 0) (S k) Hrest) as (A & B & C);
      [cbn [openFrames]; lia|].
    repeat split; [exact A | exact B |]. rewrite C. cbn [openFrames length]. lia.
Qed.

Lemma open_run_broken hp c results :
  breaksOpenRun results ->
  modeChanges (snd (frame hp (FORMED, c) results)) = []
  /\ fst (fst (frame hp (FORMED, c) results)) = FORMED
  /\ openFrames (snd (fst (frame hp (FORMED, c) results))) = 0.
Proof.
  intros [Hsig|Hsig].
  - destruct (frame_closed hp FORMED c results Hsig) as [Hs Hm]. cbv zeta in Hs, Hm.
    cbn [TreeMode_eqb] in Hs, Hm. rewrite andb_false_r in Hs, Hm.
    rewrite Hm, Hs. repeat split.
  - destruct (frame_quiet hp FORMED c results (or_introl Hsig)) as [Hs Hm].
    rewrite Hm, Hs, Hsig. repeat split.
Qed.

(** In FORMED, open hands shown in runs of at most [CONFIDENCE_THRESHOLD]
    frames never switch the mode, however many runs there are, when each
    run is followed by a frame with a closed hand or with no hand. *)
Theorem short_open_runs_never_switch hp
        (runs : list (list (Detection (Landmark num)) * Detection (Landmark num)))
        (rest : list (Detection (Landmark num))) c k :
  openFrames c = 0 ->
  Forall (fun run => length (fst run) <= CONFIDENCE_THRESHOLD
                     /\ Forall (fun results => rawSignal results = Some OPEN) (fst run)
                     /\ breaksOpenRun (snd run)) runs ->
  length rest <= CONFIDENCE_THRESHOLD ->
  Forall (fun results => rawSignal results = Some OPEN) rest ->
  switches k (frames hp (FORMED, c)
                     (flat_map (fun run => fst run ++ [snd run]) runs ++ rest)) = [].
Proof.
  intros Hc Hruns Hrest Hopen. revert c k Hc.
  induction Hruns as [|[b x] runs (Hlen & Hb & Hx) _ IH]; intros c k Hc.
  - cbn [flat_map app].
    apply (short_open_run hp rest c k Hopen). rewrite Hc. exact Hrest.
  - cbn [flat_map fst snd] in *. rewrite <- !app_assoc.
    rewrite frames_app, switches_app, frames_length.
    destruct (short_open_run hp b c k Hb) as (A & B & _); [rewrite Hc; exact Hlen|].
    rewrite A. cbn [app].
    destruct (stateAfter hp (FORMED, c) b) as [m1 c1]. cbn [fst] in B. subst m1.
    cbn [app]. rewrite frames_cons, switches_cons.
    destruct (open_run_broken hp c1 x Hx) as (Hm & Hmode & Hzero).
    rewrite Hm. cbn [map app].
    destruct (fst (frame hp (FORMED, c1) x)) as [m2 c2]. cbn [fst snd] in *. subst m2.
    apply IH. exact Hzero.
Qed.

(** A frame that ends in the [catch] block can be taken out of a stream:
    the run ends in the same state and makes the same switches in the same
    order.  Such a frame neither adds to a count nor resets one. *)
Theorem failed_frame_is_skipped hp (a b : list (Detection (Landmark num))) results s k :
  rawSignal results = None ->
  stateAfter hp s (a ++ results :: b) = stateAfter hp s (a ++ b)
  /\ map snd (switches k (frames hp s (a ++ results :: b)))
     = map snd (switches k (frames hp s (a ++ b))).
Proof.
  intro Hsig.
  assert (Q : forall s', fst (frame hp s' results) = s'
                         /\ modeChanges (snd (frame hp s' results)) = []).
  { intros [m c]. destruct (frame_quiet hp m c results (or_intror Hsig)) as [Hs Hm].
    rewrite Hs, Hm, Hsig. split; reflexivity. }
  assert (M : forall stream s' k1 k2,
             map snd (switches k1 (frames hp s' stream))
             = map snd (switches k2 (frames hp s' stream))).
  { induction stream as [|r stream IH]; intros s' k1 k2; [reflexivity|].
    rewrite frames_cons, !switches_cons, !map_app, !map_map. cbn [snd].
    f_equal. apply IH. }
  split.
  - unfold stateAfter. rewrite !frames_app, !map_app, frames_cons.
    destruct (Q (stateAfter hp s a)) as [Qs _]. cbn [map]. rewrite !Qs.
    rewrite !last_app_shift, last_cons_shift. reflexivity.
  - rewrite !frames_app, !switches_app, !map_app, frames_cons, switches_cons.
    destruct (Q (stateAfter hp s a)) as [Qs Qm]. rewrite Qs, Qm. cbn [map app].
    f_equal. apply M.
Qed.

(** ** A loop of the second version *)

Lemma predictFrame_v2_unfold m hp c results :
  predictFrame_v2 m hp c results = predictFrame m hp c results.
Proof.
  unfold predictFrame, predictFrame_v2, countFrames, countFrames_v2, catchBlock.
  destruct results as [|[|landmarks hands]]; reflexivity.
Qed.

Lemma v2_open_run hp stream : forall n,
  n <= CONFIDENCE_THRESHOLD ->
  Forall (fun results => rawSignal results = Some OPEN) stream ->
  flat_map (fun r => modeChanges (snd r)) (frames_v2 FORMED hp (mkCounters n 0) stream)
  = repeat CHAOS ((n + length stream) / S CONFIDENCE_THRESHOLD).
Proof.
  unfold CONFIDENCE_THRESHOLD.
  induction stream as [|results stream IH]; intros n Hn Hall.
  - cbn [frames_v2 flat_map length]. rewrite Nat.add_0_r, Nat.div_small by lia. reflexivity.
  - inversion Hall as [|? ? Hsig Hrest]; subst.
    cbn [frames_v2 flat_map length]. rewrite predictFrame_v2_unfold.
    pose proof (predictFrame_signal FORMED hp (mkCounters n 0) results) as P.
    cbv zeta in P. rewrite Hsig in P. destruct P as [Pc Pm]. rewrite Pc, Pm.
    unfold countFrames, CONFIDENCE_THRESHOLD.
    cbn [andb openFrames closedFrames TreeMode_eqb]. rewrite andb_true_r.
    destruct (Nat.ltb_spec 5 (S n)) as [Hlt|Hge]; cbn [fst snd modeChanges flat_map app].
    + assert (n = 5) by lia. subst n.
      rewrite (IH 0) by (assumption || lia).
      replace (5 + S (length stream)) with (length stream + 1 * 6) by lia.
      rewrite Nat.div_add by lia. rewrite Nat.add_1_r. reflexivity.
    + rewrite (IH (S n)) by (assumption || lia).
      now rewrite Nat.add_succ_r.
Qed.

(** A loop of the second version that was created while the mode was
    FORMED calls [onModeChange(CHAOS)] again after every six frames of an
    open hand, for as long as the hand stays open: the mode it compares
    with stays the one its closure captured. *)
Theorem v2_loop_switches_again hp stream :
  Forall (fun results => rawSignal results = Some OPEN) stream ->
  flat_map (fun r => modeChanges (snd r)) (frames_v2 FORMED hp (mkCounters 0 0) stream)
  = repeat CHAOS (length stream / S CONFIDENCE_THRESHOLD).
Proof.
  intro Hall. apply (v2_open_run hp stream 0); [unfold CONFIDENCE_THRESHOLD; lia | exact Hall].
Qed.

(** ** The pointer [App] holds *)

Lemma handleHandPosition_last es : forall h,
  handleHandPosition h es = last (pointerUpdates es) h.
Proof.
  induction es as [|e es IH]; intro h; [reflexivity|].
  unfold handleHandPosition in *. simpl fold_left. rewrite IH.
  destruct e; try reflexivity.
  simpl pointerUpdates. now rewrite last_cons_shift.
Qed.

Lemma pointerUpdates_handOf m c results :
  pointerUpdates (snd (predictFrame m true c results)) = handOf results.
Proof.
  unfold predictFrame, handOf.
  destruct results as [|[|landmarks hands]]; try reflexivity.
  destruct (center landmarks) as [centerX centerY]. cbn [fst snd].
  destruct (fingers landmarks) as [[indexOpen middleOpen]|].
  - pose proof (pointerUpdates_countFrames (num:=num) m c indexOpen middleOpen) as Hcf.
    destruct (countFrames (num:=num) m c indexOpen middleOpen) as [c1 switched].
    cbn [snd] in *. now apply (pointerUpdates_frame true (landmarks :: hands)).
  - cbn [snd]. now apply (pointerUpdates_frame true (landmarks :: hands)).
Qed.

(** After any run, the [handPosition] that [App] holds is the one of the
    last frame whose detection returned: (0.5, 0.5, false) if it returned
    no hand, the centre of its first hand with [true] otherwise.  It is the
    initial one if no detection returned.  Neither the mode nor the
    counters have a part in it. *)
Theorem handPosition_follows_last_detection stream : forall s (h : num * num * bool),
  handPositionAfter h (frames true s stream) = last (flat_map handOf stream) h.
Proof.
  induction stream as [|results stream IH]; intros [m c] h; [reflexivity|].
  rewrite frames_cons. unfold handPositionAfter in *. cbn [fold_left flat_map].
  rewrite IH, last_app_shift. f_equal.
  unfold frame. cbn [fst snd].
  pose proof (pointerUpdates_handOf m c results) as P.
  destruct (predictFrame m true c results) as [c' es]. cbn [snd] in *.
  now rewrite handleHandPosition_last, P.
Qed.

End Runs.

Section MountingProperties.

Context {num : Type} `{Number num}.

Implicit Types (p : Page) (k : Mounted) (results first : Detection (Landmark num)).
Implicit Types (evs : list (MountEvent (num:=num))) (cam : Camera).

(** ** What a call of [predictWebcam] touches *)

Lemma predictWebcam_refs p results :
  videoRef (predictWebcam p results) = videoRef p
  /\ handLandmarkerRef (predictWebcam p results) = handLandmarkerRef p
  /\ canvasRef (predictWebcam p results) = canvasRef p
  /\ calls (predictWebcam p results) = S (calls p).
Proof.
  unfold predictWebcam, entered, requestAnimationFrame.
  cbn [videoRef handLandmarkerRef canvasRef modeRef hasHandPosition counters
       animationFrameIdRef animationFrames timeouts lastHandle calls].
  destruct (videoRef p) as [video|]; [|repeat split].
  destruct (handLandmarkerRef p); [|repeat split].
  destruct (canvasRef p) as [canvasCtx|]; [|repeat split].
  destruct (readyState video <? 2); [repeat split|].
  destruct canvasCtx; cbn [negb]; [|repeat split].
  destruct (predictFrame (modeRef p) (hasHandPosition p) (counters p) results).
  repeat split.
Qed.

(** Every call leaves exactly one callback behind: a requested frame or a
    timeout. *)
Lemma predictWebcam_schedules_one p results :
  length (animationFrames (predictWebcam p results)) + timeouts (predictWebcam p results)
  = S (length (animationFrames p) + timeouts p).
Proof.
  unfold predictWebcam, entered, requestAnimationFrame.
  cbn [videoRef handLandmarkerRef canvasRef modeRef hasHandPosition counters
       animationFrameIdRef animationFrames timeouts lastHandle calls].
  assert (R : length (animationFrames p ++ [S (lastHandle p)]) + timeouts p
              = S (length (animationFrames p) + timeouts p)).
  { rewrite length_app. cbn [length]. lia. }
  destruct (videoRef p) as [video|]; [|exact R].
  destruct (handLandmarkerRef p); [|exact R].
  destruct (canvasRef p) as [canvasCtx|]; [|exact R].
  destruct (readyState video <? 2); [exact R|].
  destruct canvasCtx; cbn [negb]; [|exact R].
  pose proof (one_timeout_per_frame (modeRef p) (hasHandPosition p) (counters p) results) as T.
  destruct (predictFrame (modeRef p) (hasHandPosition p) (counters p) results) as [c' es].
  cbn [snd animationFrames timeouts] in *. rewrite T. lia.
Qed.

Lemma predictWebcam_without_landmarker p results :
  handLandmarkerRef p = None ->
  counters (predictWebcam p results) = counters p
  /\ modeRef (predictWebcam p results) = modeRef p.
Proof.
  intro Hl. unfold predictWebcam, entered, requestAnimationFrame.
  cbn [videoRef handLandmarkerRef canvasRef modeRef hasHandPosition counters
       animationFrameIdRef animationFrames timeouts lastHandle calls].
  rewrite Hl. destruct (videoRef p); split; reflexivity.
Qed.

Lemma cleanup_fields p :
  handLandmarkerRef (fst (cleanup p)) = None
  /\ counters (fst (cleanup p)) = counters p
  /\ modeRef (fst (cleanup p)) = modeRef p
  /\ timeouts (fst (cleanup p)) = timeouts p
  /\ length (animationFrames (fst (cleanup p))) <= length (animationFrames p).
Proof.
  unfold cleanup.
  destruct (animationFrameIdRef p) as [[|h]|]; destruct (handLandmarkerRef p);
    destruct (stopStream (videoRef p));
    cbn [fst handLandmarkerRef counters modeRef timeouts animationFrames];
    repeat split; try apply remove_length_le; lia.
Qed.

Lemma videoLoaded_fields p :
  handLandmarkerRef (videoLoaded p) = handLandmarkerRef p
  /\ counters (videoLoaded p) = counters p
  /\ modeRef (videoLoaded p) = modeRef p
  /\ timeouts (videoLoaded p) = timeouts p
  /\ animationFrames (videoLoaded p) = animationFrames p
  /\ calls (videoLoaded p) = calls p
  /\ tracksOf (videoLoaded p) = tracksOf p.
Proof.
  unfold videoLoaded, tracksOf. destruct (videoRef p) as [video|] eqn:Hv.
  - cbn [withVideo handLandmarkerRef counters modeRef timeouts animationFrames calls
         videoRef srcObject]. repeat split.
  - rewrite Hv. repeat split.
Qed.

Lemma unmount_fields p :
  handLandmarkerRef (fst (unmount p)) = None
  /\ counters (fst (unmount p)) = counters p
  /\ modeRef (fst (unmount p)) = modeRef p
  /\ timeouts (fst (unmount p)) = timeouts p
  /\ length (animationFrames (fst (unmount p))) <= length (animationFrames p)
  /\ calls (fst (unmount p)) = calls p.
Proof.
  unfold unmount. destruct (cleanup_fields (detachRefs p)) as (A & B & C & D & E).
  repeat split; try assumption.
  unfold cleanup.
  destruct (animationFrameIdRef (detachRefs p)) as [[|h]|];
    destruct (handLandmarkerRef (detachRefs p));
    destruct (stopStream (videoRef (detachRefs p))); reflexivity.
Qed.

(** ** Callbacks do not pile up *)

Lemma mountStep_waiting k (e : MountEvent (num:=num)) :
  waiting (mountStep k e) <= waiting k
  /\ (isCleanup e = false -> waiting (mountStep k e) = waiting k).
Proof.
  unfold waiting.
  destruct e as [[| results |]| results |];
    cbn [mountStep step isCleanup page loadeddataListeners].
  - destruct (timeouts (page k)) as [|n] eqn:Ht; [rewrite Ht; lia|].
    unfold requestAnimationFrame. cbn [animationFrames timeouts]. rewrite length_app.
    cbn [length]. lia.
  - destruct (animationFrames (page k)) as [|h waitingFrames] eqn:Hf; [rewrite Hf; lia|].
    match goal with
    | |- context [predictWebcam ?q results] =>
        pose proof (predictWebcam_schedules_one q results) as S1
    end.
    cbn [animationFrames timeouts length] in *. lia.
  - destruct (cleanup_fields (page k)) as (_ & _ & _ & Ht & Hf).
    split; [lia | discriminate].
  - destruct (videoLoaded_fields (page k)) as (_ & _ & _ & Ht & Hf & _).
    destruct (loadeddataListeners k) as [|n] eqn:Hn; cbn [page loadeddataListeners].
    + rewrite Ht, Hf. lia.
    + pose proof (predictWebcam_schedules_one (videoLoaded (page k)) results) as S1.
      rewrite Ht, Hf in S1. lia.
  - destruct (unmount_fields (page k)) as (_ & _ & _ & Ht & Hf & _).
    split; [lia | discriminate].
Qed.

Lemma mountSteps_waiting evs : forall k,
  waiting (mountSteps k evs) <= waiting k
  /\ (forallb (fun e => negb (isCleanup e)) evs = true ->
      waiting (mountSteps k evs) = waiting k).
Proof.
  induction evs as [|e evs IH]; intro k; [split; reflexivity|].
  unfold mountSteps in *. cbn [fold_left forallb].
  destruct (mountStep_waiting k e) as [Hle Heq].
  destruct (IH (mountStep k e)) as [IHle IHeq].
  split; [lia|]. intro Hall. apply andb_prop in Hall. destruct Hall as [He Hevs].
  rewrite IHeq by exact Hevs. apply Heq. now destruct (isCleanup e).
Qed.

(** Under any events the number of callbacks waiting to run
    [predictWebcam] never grows, and it stays the same as long as the
    cleanup does not run: each callback that runs leaves exactly one behind.
    One call of [predictWebcam()] makes one loop, not more. *)
Theorem callbacks_never_pile_up evs k :
  waiting (mountSteps k evs) <= waiting k
  /\ (forallb (fun e => negb (isCleanup e)) evs = true ->
      waiting (mountSteps k evs) = waiting k).
Proof.
  revert k. induction evs as [|e evs IH]; intro k; [split; reflexivity|].
  unfold mountSteps in *. cbn [fold_left forallb].
  destruct (mountStep_waiting k e) as [Hle Heq].
  destruct (IH (mountStep k e)) as [IHle IHeq].
  split; [lia|]. intro Hall. apply andb_prop in Hall. destruct Hall as [He Hevs].
  rewrite IHeq by exact Hevs. apply Heq. now destruct (isCleanup e).
Qed.

(** ** Without a landmarker *)

Lemma mountStep_without_landmarker k (e : MountEvent (num:=num)) :
  handLandmarkerRef (page k) = None ->
  handLandmarkerRef (page (mountStep k e)) = None
  /\ counters (page (mountStep k e)) = counters (page k)
  /\ modeRef (page (mountStep k e)) = modeRef (page k).
Proof.
  intro Hl.
  destruct e as [[| results |]| results |]; cbn [mountStep step page].
  - destruct (timeouts (page k)); [auto|]. repeat split; exact Hl.
  - destruct (animationFrames (page k)) as [|h waitingFrames]; [auto|].
    match goal with
    | |- context [predictWebcam ?q results] =>
        destruct (predictWebcam_refs q results) as (_ & Hr & _);
        destruct (predictWebcam_without_landmarker q results Hl) as [Hc Hm]
    end.
    rewrite Hr, Hc, Hm. repeat split; exact Hl.
  - destruct (cleanup_fields (page k)) as (A & B & C & _). auto.
  - destruct (videoLoaded_fields (page k)) as (Vl & Vc & Vm & _).
    assert (Hl' : handLandmarkerRef (videoLoaded (page k)) = None) by (rewrite Vl; exact Hl).
    destruct (loadeddataListeners k); cbn [page]; [rewrite Vc, Vm; auto|].
    destruct (predictWebcam_refs (videoLoaded (page k)) results) as (_ & Hr & _).
    destruct (predictWebcam_without_landmarker (videoLoaded (page k)) results Hl')
      as [Hc Hm].
    rewrite Hr, Hc, Hm, Vc, Vm. auto.
  - destruct (unmount_fields (page k)) as (A & B & C & _). auto.
Qed.

Lemma mountSteps_without_landmarker evs : forall k,
  handLandmarkerRef (page k) = None ->
  handLandmarkerRef (page (mountSteps k evs)) = None
  /\ counters (page (mountSteps k evs)) = counters (page k)
  /\ modeRef (page (mountSteps k evs)) = modeRef (page k).
Proof.
  induction evs as [|e evs IH]; intros k Hl; [auto|].
  unfold mountSteps in *. cbn [fold_left].
  destruct (mountStep_without_landmarker k e Hl) as (A & B & C).
  destruct (IH _ A) as (A' & B' & C'). rewrite B', C'. auto.
Qed.

(** Once the cleanup has run, whatever still fires (a timeout, a frame, a
    [loadeddata] listener, the cleanup again) leaves the counters and the
    mode read by the loop as they were: a call of [predictWebcam] finds no
    landmarker and processes nothing. *)
Theorem nothing_is_processed_after_cleanup k evs :
  let cleaned := mkMounted (fst (cleanup (page k))) (loadeddataListeners k) in
  counters (page (mountSteps cleaned evs)) = counters (page k)
  /\ modeRef (page (mountSteps cleaned evs)) = modeRef (page k)
  /\ handLandmarkerRef (page (mountSteps cleaned evs)) = None.
Proof.
  cbv zeta. destruct (cleanup_fields (page k)) as (A & B & C & _).
  destruct (mountSteps_without_landmarker evs
              (mkMounted (fst (cleanup (page k))) (loadeddataListeners k)) A)
    as (A' & B' & C').
  cbn [page] in *. rewrite B', C'. auto.
Qed.

(** ** Starting the camera *)

Lemma webcamError_not_ready err : webcamError err <> ReadyShowYourHand.
Proof.
  unfold webcamError. destruct (String.eqb (name err) _); discriminate.
Qed.

Lemma tracksOf_predictWebcam p results :
  tracksOf (predictWebcam p results) = tracksOf p.
Proof.
  unfold tracksOf. destruct (predictWebcam_refs p results) as (-> & _). reflexivity.
Qed.

Lemma startWebcam_parts cam first k :
  let r := startWebcam cam first k in
  (In ReadyShowYourHand (snd r) <-> waiting (fst r) = S (waiting k))
  /\ (~ In ReadyShowYourHand (snd r) -> waiting (fst r) = waiting k
                                        /\ calls (page (fst r)) = calls (page k))
  /\ handLandmarkerRef (page (fst r)) = handLandmarkerRef (page k)
  /\ (forall stream video,
        getUserMedia cam = Some (inr stream) -> videoRef (page k) = Some video ->
        tracksOf (page (fst r)) = stream)
  /\ (In ReadyShowYourHand (snd r) \/ ~ In ReadyShowYourHand (snd r)).
Proof.
  cbv zeta. unfold startWebcam.
  destruct (getUserMedia cam) as [[err|stream]|].
  - cbn [fst snd In]. pose proof (webcamError_not_ready err).
    repeat split; intros; try discriminate; intuition (try congruence; try lia).
  - destruct (videoRef (page k)) as [video|] eqn:Hv.
    + destruct (play cam) as [err|].
      * cbn [fst snd In page]. pose proof (webcamError_not_ready err).
        unfold waiting, tracksOf.
        cbn [page loadeddataListeners withVideo animationFrames timeouts
             handLandmarkerRef calls videoRef srcObject].
        repeat split; intros; try discriminate; intuition (try congruence; try lia).
      * destruct (2 <=? loaded cam).
        -- cbn [fst snd In page].
           match goal with
           | |- context [predictWebcam ?q first] =>
               pose proof (predictWebcam_schedules_one q first) as S1;
               destruct (predictWebcam_refs q first) as (_ & Hr & _);
               pose proof (tracksOf_predictWebcam q first) as Ht
           end.
           unfold waiting. cbn [page loadeddataListeners]. rewrite Hr, Ht.
           unfold tracksOf in *.
           cbn [withVideo animationFrames timeouts handLandmarkerRef videoRef srcObject] in *.
           repeat split; intros; try discriminate; intuition (try congruence; try lia).
        -- cbn [fst snd In page]. unfold waiting, tracksOf.
           cbn [page loadeddataListeners withVideo animationFrames timeouts
                handLandmarkerRef calls videoRef srcObject].
           repeat split; intros; try discriminate; intuition (try congruence; try lia).
    + cbn [fst snd In].
      repeat split; intros; try discriminate; intuition (try congruence; try lia).
  - cbn [fst snd In].
    repeat split; intros; try discriminate; intuition (try congruence; try lia).
Qed.

(** [startWebcam] sets the text to Ready exactly when it leaves one
    callback behind that runs [predictWebcam]; in every other case it
    leaves none, so it never starts more than one loop.  It never touches
    the landmarker.  When it got a stream and there is a video element, the
    stream is on the element afterwards, also when [play()] rejects. *)
Theorem startWebcam_outcome cam first k :
  let r := startWebcam cam first k in
  (In ReadyShowYourHand (snd r) <-> waiting (fst r) = S (waiting k))
  /\ (~ In ReadyShowYourHand (snd r) -> waiting (fst r) = waiting k
                                        /\ calls (page (fst r)) = calls (page k))
  /\ handLandmarkerRef (page (fst r)) = handLandmarkerRef (page k)
  /\ (forall stream video,
        getUserMedia cam = Some (inr stream) -> videoRef (page k) = Some video ->
        tracksOf (page (fst r)) = stream).
Proof.
  destruct (startWebcam_parts cam first k) as (A & B & C & D & _). cbv zeta in *.
  exact (conj A (conj B (conj C D))).
Qed.

(** The two versions of [startWebcam] set the same text and, unless the
    video has already loaded when [play()] resolves, leave the same page.
    When it has loaded, the first calls [predictWebcam()] at once and adds
    no listener; the second calls nothing and adds a [loadeddata] listener. *)
Theorem startWebcam_versions cam first k :
  snd (startWebcam cam first k) = snd (startWebcam_v2 cam k)
  /\ (loaded cam < 2 -> startWebcam cam first k = startWebcam_v2 cam k)
  /\ (forall stream video,
        getUserMedia cam = Some (inr stream) -> videoRef (page k) = Some video ->
        play cam = None -> 2 <= loaded cam ->
        calls (page (fst (startWebcam cam first k))) = S (calls (page k))
        /\ loadeddataListeners (fst (startWebcam cam first k)) = loadeddataListeners k
        /\ calls (page (fst (startWebcam_v2 cam k))) = calls (page k)
        /\ loadeddataListeners (fst (startWebcam_v2 cam k)) = S (loadeddataListeners k)).
Proof.
  unfold startWebcam, startWebcam_v2.
  destruct (getUserMedia cam) as [[err|stream]|]; try (repeat split; intros; discriminate).
  destruct (videoRef (page k)) as [video|]; try (repeat split; intros; discriminate).
  destruct (play cam) as [err|]; try (repeat split; intros; discriminate).
  destruct (Nat.leb_spec 2 (loaded cam)) as [Hge|Hlt].
  - split; [reflexivity|]. split; [intro; lia|].
    intros ? ? _ _ _ _. cbn [fst page loadeddataListeners].
    match goal with
    | |- context [predictWebcam ?q first] =>
        destruct (predictWebcam_refs q first) as (_ & _ & _ & Hc)
    end.
    rewrite Hc. repeat split.
  - split; [reflexivity|]. split; [reflexivity|]. intros; lia.
Qed.

(** ** The mounting effect *)

Lemma idle_stays_idle evs : forall k,
  waiting k = 0 -> calls (page (mountSteps k evs)) = calls (page k).
Proof.
  induction evs as [|e evs IH]; intros k Hw; [reflexivity|].
  unfold mountSteps in *. cbn [fold_left].
  destruct (mountStep_waiting k e) as [Hle _].
  rewrite IH by lia.
  unfold waiting in Hw.
  destruct e as [[| results |]| results |]; cbn [mountStep step page].
  - destruct (timeouts (page k)); [reflexivity | lia].
  - destruct (animationFrames (page k)); [reflexivity | cbn [length] in Hw; lia].
  - unfold cleanup.
    destruct (animationFrameIdRef (page k)) as [[|h]|]; destruct (handLandmarkerRef (page k));
      destruct (stopStream (videoRef (page k))); reflexivity.
  - destruct (loadeddataListeners k); [|lia]. cbn [page].
    apply (videoLoaded_fields (page k)).
  - apply (unmount_fields (page k)).
Qed.

(** On a page where nothing waits and no landmarker exists, [setup]
    leaves at most one callback waiting, and exactly one when it sets the
    text to Ready; from then on at most one callback waits at any time.
    When it does not set Ready (the landmarker could not be created, the
    browser has no camera API, the camera was refused, there is no video
    element, or [play()] rejected), [predictWebcam] is never called,
    whatever happens later. *)
Theorem setup_starts_at_most_one_loop created cam first k evs :
  waiting k = 0 -> handLandmarkerRef (page k) = None ->
  let r := setup created cam first k in
  waiting (mountSteps (fst r) evs) <= 1
  /\ (In ReadyShowYourHand (snd r) <-> waiting (fst r) = 1)
  /\ (~ In ReadyShowYourHand (snd r) ->
      calls (page (mountSteps (fst r) evs)) = calls (page k)).
Proof.
  intros Hw Hl. cbv zeta.
  assert (W : (In ReadyShowYourHand (snd (setup created cam first k))
               \/ ~ In ReadyShowYourHand (snd (setup created cam first k)))
              /\ (In ReadyShowYourHand (snd (setup created cam first k))
               <-> waiting (fst (setup created cam first k)) = 1)
              /\ (~ In ReadyShowYourHand (snd (setup created cam first k)) ->
                  waiting (fst (setup created cam first k)) = 0
                  /\ calls (page (fst (setup created cam first k))) = calls (page k))).
  { unfold setup. rewrite Hl. destruct created as [landmarker|].
    - set (k1 := mkMounted (withLandmarker (page k) (Some landmarker))
                           (loadeddataListeners k)).
      assert (Hw1 : waiting k1 = 0) by exact Hw.
      destruct (startWebcam_parts cam first k1) as (A & B & _ & _ & D).
      cbv zeta in *. rewrite Hw1 in A, B. exact (conj D (conj A B)).
    - cbn [fst snd In]. split; [right; intros [E|[]]; discriminate E|]. split.
      + split; [intros [E|[]]; discriminate E | intro E].
        unfold waiting in *. cbn [page withLandmarker animationFrames timeouts
                                  loadeddataListeners] in E. lia.
      + intros _. split; [exact Hw | reflexivity]. }
  destruct W as (W0 & W1 & W2).
  destruct (mountSteps_waiting evs (fst (setup created cam first k))) as [Hle _].
  split; [|split; [exact W1|]].
  - destruct W0 as [Hin|Hnin].
    + apply W1 in Hin. lia.
    + destruct (W2 Hnin). lia.
  - intro N. destruct (W2 N) as [Z C]. rewrite idle_stays_idle by exact Z. exact C.
Qed.

Lemma setup_landmarker landmarker cam first k :
  handLandmarkerRef (page k) = None ->
  handLandmarkerRef (page (fst (setup (Some landmarker) cam first k))) = Some landmarker.
Proof.
  intro Hl. unfold setup. rewrite Hl.
  destruct (startWebcam_parts cam first
              (mkMounted (withLandmarker (page k) (Some landmarker))
                         (loadeddataListeners k))) as (_ & _ & C & _).
  cbv zeta in C. rewrite C. reflexivity.
Qed.

(** Once [setup] has created the landmarker, running [setup] again does
    nothing at all, whatever the second run would get: no second
    landmarker, and no second try at the camera even if the first try
    failed. *)
Theorem setup_runs_once landmarker cam first k created' cam' first' :
  handLandmarkerRef (page k) = None ->
  setup created' cam' first' (fst (setup (Some landmarker) cam first k))
  = (fst (setup (Some landmarker) cam first k), []).
Proof.
  intro Hl. pose proof (setup_landmarker landmarker cam first k Hl) as E.
  unfold setup at 1. rewrite E. reflexivity.
Qed.

Lemma cleanup_releases p :
  filter isResourceRelease (snd (cleanup p))
  = match handLandmarkerRef p with Some l => [closeLandmarker l] | None => [] end
      ++ map stopTrack (tracksOf p).
Proof.
  unfold cleanup, tracksOf, stopStream.
  destruct (animationFrameIdRef p) as [[|h]|]; destruct (handLandmarkerRef p);
    destruct (videoRef p) as [[ready [tracks|]]|];
    cbn [snd app filter isResourceRelease map srcObject readyState];
    rewrite ?filter_release_stopTrack; reflexivity.
Qed.

Lemma mountStep_keeps_resources k (e : MountEvent (num:=num)) :
  isCleanup e = false ->
  handLandmarkerRef (page (mountStep k e)) = handLandmarkerRef (page k)
  /\ tracksOf (page (mountStep k e)) = tracksOf (page k).
Proof.
  intro He.
  destruct e as [[| results |]| results |]; cbn [mountStep step page]; try discriminate He.
  - destruct (timeouts (page k)); split; reflexivity.
  - destruct (animationFrames (page k)) as [|h waitingFrames]; [split; reflexivity|].
    match goal with
    | |- context [predictWebcam ?q results] =>
        destruct (predictWebcam_refs q results) as (_ & Hr & _);
        pose proof (tracksOf_predictWebcam q results) as Ht
    end.
    rewrite Hr, Ht. split; reflexivity.
  - destruct (videoLoaded_fields (page k)) as (Vl & _ & _ & _ & _ & _ & Vt).
    destruct (loadeddataListeners k); cbn [page]; [split; assumption|].
    destruct (predictWebcam_refs (videoLoaded (page k)) results) as (_ & Hr & _).
    rewrite Hr, tracksOf_predictWebcam. split; assumption.
Qed.

Lemma mountSteps_keep_resources evs : forall k,
  forallb (fun e => negb (isCleanup e)) evs = true ->
  handLandmarkerRef (page (mountSteps k evs)) = handLandmarkerRef (page k)
  /\ tracksOf (page (mountSteps k evs)) = tracksOf (page k).
Proof.
  induction evs as [|e evs IH]; intros k Hall; [split; reflexivity|].
  unfold mountSteps in *. cbn [fold_left forallb] in *.
  apply andb_prop in Hall. destruct Hall as [He Hevs].
  destruct (mountStep_keeps_resources k e) as [A B]; [now destruct (isCleanup e)|].
  destruct (IH (mountStep k e) Hevs) as [A' B']. rewrite A', B'. auto.
Qed.

(** What an unmount gives back of what [setup] acquired.  After [setup]
    has created a landmarker and put a camera stream on the video element,
    and after any timeouts, frames and [loadeddata] events, the stream is
    still on the element.  When the component then unmounts, the cleanup
    finds [videoRef.current] already [null]: it closes that landmarker,
    once, and stops no track of the stream. *)
Theorem unmount_closes_the_landmarker_only landmarker cam first k evs stream video :
  handLandmarkerRef (page k) = None ->
  videoRef (page k) = Some video ->
  getUserMedia cam = Some (inr stream) ->
  forallb (fun e => negb (isCleanup e)) evs = true ->
  let before := page (mountSteps (fst (setup (Some landmarker) cam first k)) evs) in
  tracksOf before = stream
  /\ filter isResourceRelease (snd (unmount before)) = [closeLandmarker landmarker]
  /\ (forall t, ~ In (stopTrack t) (snd (unmount before)))
  /\ handLandmarkerRef (fst (unmount before)) = None.
Proof.
  intros Hl Hv Hcam Hevs. cbv zeta.
  destruct (mountSteps_keep_resources evs (fst (setup (Some landmarker) cam first k)) Hevs)
    as [A B].
  rewrite (setup_landmarker landmarker cam first k Hl) in A.
  assert (T : tracksOf (page (fst (setup (Some landmarker) cam first k))) = stream).
  { unfold setup. rewrite Hl.
    destruct (startWebcam_parts cam first
                (mkMounted (withLandmarker (page k) (Some landmarker))
                           (loadeddataListeners k))) as (_ & _ & _ & D & _).
    cbv zeta in D. exact (D stream video Hcam Hv). }
  rewrite T in B.
  set (before := page (mountSteps (fst (setup (Some landmarker) cam first k)) evs)) in *.
  assert (R : filter isResourceRelease (snd (unmount before)) = [closeLandmarker landmarker]).
  { unfold unmount. rewrite cleanup_releases.
    unfold detachRefs, tracksOf. cbn [handLandmarkerRef videoRef]. rewrite A. reflexivity. }
  split; [exact B|]. split; [exact R|]. split.
  - intros t Hin.
    assert (Hf : In (stopTrack t) (filter isResourceRelease (snd (unmount before)))).
    { apply filter_In. split; [exact Hin | reflexivity]. }
    rewrite R in Hf. destruct Hf as [E|[]]. discriminate E.
  - apply (unmount_fields before).
Qed.

End MountingProperties.

(** ** Uploading photos *)

Lemma readAll_reads {File : Type} (read : File -> option String.string) files :
  forall photos, readAll read files = Some photos <-> map read files = map Some photos.
Proof.
  induction files as [|file files IH]; intro photos; cbn [readAll map].
  - destruct photos; cbn [map]; split; intro E; try reflexivity; discriminate E.
  - destruct (read file) as [url|].
    + destruct (readAll read files) as [urls|].
      * pose proof (proj1 (IH urls) eq_refl) as Hurls. split; intro E.
        -- injection E as <-. cbn [map]. now rewrite Hurls.
        -- destruct photos as [|url' photos]; [discriminate E|].
           cbn [map] in E. injection E as <- E. apply IH in E. now injection E as <-.
      * split; [discriminate|]. intro E.
        destruct photos as [|url' photos]; [discriminate E|].
        cbn [map] in E. injection E as _ E. apply IH in E. discriminate E.
    + split; [discriminate|]. intro E.
      destruct photos as [|url' photos]; discriminate E.
Qed.

(** [onPhotosUpload] is called exactly when at least one file was chosen
    and every chosen file loads; it then gets one data URL per file, in
    the order of the files.  One file that never loads keeps all of them
    back, and it is never called with an empty list. *)
Theorem photos_all_or_nothing {File : Type} (read : File -> option String.string)
        (files : option (list File)) (photos : list String.string) :
  handleFileChange read files = Some photos
  <-> exists chosen, files = Some chosen /\ chosen <> []
                     /\ map read chosen = map Some photos.
Proof.
  unfold handleFileChange. split.
  - destruct files as [[|file chosen]|]; try discriminate.
    intro E. exists (file :: chosen). apply readAll_reads in E.
    repeat split; [discriminate | exact E].
  - intros (chosen & -> & Hne & E). destruct chosen as [|file chosen]; [congruence|].
    now apply readAll_reads.
Qed.

Lemma uploaded_stay_nonempty {File : Type} (read : File -> option String.string)
      uploadedPhotos files :
  hasPhotos uploadedPhotos = true ->
  hasPhotos (uploadedPhotosAfter read uploadedPhotos files) = true.
Proof.
  intro Hp. unfold uploadedPhotosAfter.
  destruct (handleFileChange read files) as [photos|] eqn:E; [|exact Hp].
  destruct files as [[|file chosen]|]; try discriminate E.
  cbn [handleFileChange readAll] in E.
  destruct (read file); [|discriminate E].
  destruct (readAll read chosen); [|discriminate E].
  injection E as <-. reflexivity.
Qed.

(** Once [App] holds photos, no later file selection takes them all away:
    [hasPhotos] stays true (and the upload button stays hidden), whatever
    is selected and whatever loads. *)
Theorem photos_are_never_lost {File : Type} (read : File -> option String.string)
        (selections : list (option (list File))) : forall uploadedPhotos,
  hasPhotos uploadedPhotos = true ->
  hasPhotos (fold_left (uploadedPhotosAfter read) selections uploadedPhotos) = true.
Proof.
  induction selections as [|files selections IH]; intros uploadedPhotos Hp; [exact Hp|].
  cbn [fold_left]. apply IH. now apply uploaded_stay_nonempty.
Qed.

(** * More instances *)

Lemma short_open_runs_never_switch_witness :
  let runs := [(repeat openFrame 5, closedFrame); ([openFrame], Landmarks []);
               (repeat openFrame 5, closedFrame)] in
  (openFrames (mkCounters 0 0) = 0
   /\ Forall (fun run => length (fst run) <= CONFIDENCE_THRESHOLD
                         /\ Forall (fun results => rawSignal results = Some OPEN) (fst run)
                         /\ breaksOpenRun (snd run)) runs
   /\ length (repeat openFrame 5) <= CONFIDENCE_THRESHOLD
   /\ Forall (fun results => rawSignal results = Some OPEN) (repeat openFrame 5))
  /\ switches 1 (frames true (FORMED, mkCounters 0 0)
                        (flat_map (fun run => fst run ++ [snd run]) runs
                           ++ repeat openFrame 5)) = [].
Proof.
  cbv zeta.
  assert (H1 : openFrames (mkCounters 0 0) = 0) by reflexivity.
  assert (H2 : Forall (fun run => length (fst run) <= CONFIDENCE_THRESHOLD
                         /\ Forall (fun results => rawSignal results = Some OPEN) (fst run)
                         /\ breaksOpenRun (snd run))
                      [(repeat openFrame 5, closedFrame); ([openFrame], Landmarks []);
                       (repeat openFrame 5, closedFrame)]).
  { repeat (apply Forall_cons;
            [cbn [fst snd]; split;
             [vm_compute; lia
             | split; [repeat constructor
                      | (left; reflexivity) || (right; reflexivity)]]|]).
    apply Forall_nil. }
  assert (H3 : length (repeat openFrame 5) <= CONFIDENCE_THRESHOLD)
    by (vm_compute; lia).
  assert (H4 : Forall (fun results => rawSignal results = Some OPEN) (repeat openFrame 5))
    by (repeat constructor).
  split; [repeat split; assumption|].
  exact (short_open_runs_never_switch true _ _ _ 1 H1 H2 H3 H4).
Defined.

(** Five open hands, a detection that throws, one more open hand: the
    switch comes all the same. *)
Lemma failed_frame_is_skipped_witness :
  rawSignal (Throws : Detection (Landmark float)) = None
  /\ stateAfter true (FORMED, mkCounters 0 0) (repeat openFrame 5 ++ Throws :: [openFrame])
     = stateAfter true (FORMED, mkCounters 0 0) (repeat openFrame 5 ++ [openFrame])
  /\ map snd (switches 1 (frames true (FORMED, mkCounters 0 0)
                                 (repeat openFrame 5 ++ Throws :: [openFrame])))
     = map snd (switches 1 (frames true (FORMED, mkCounters 0 0)
                                   (repeat openFrame 5 ++ [openFrame]))).
Proof.
  assert (H1 : rawSignal (Throws : Detection (Landmark float)) = None) by reflexivity.
  split; [exact H1|].
  exact (failed_frame_is_skipped true (repeat openFrame 5) [openFrame] Throws
           (FORMED, mkCounters 0 0) 1 H1).
Defined.

Lemma v2_loop_switches_again_witness :
  Forall (fun results => rawSignal results = Some OPEN) (repeat openFrame 13)
  /\ flat_map (fun r => modeChanges (snd r))
              (frames_v2 FORMED true (mkCounters 0 0) (repeat openFrame 13))
     = repeat CHAOS (length (repeat openFrame 13) / S CONFIDENCE_THRESHOLD).
Proof.
  assert (H1 : Forall (fun results => rawSignal results = Some OPEN) (repeat openFrame 13))
    by (repeat constructor).
  split; [exact H1|].
  exact (v2_loop_switches_again true (repeat openFrame 13) H1).
Defined.

Lemma callbacks_never_pile_up_witness :
  let k := fst (setup (Some 3) grantingCamera openFrame justMounted) in
  forallb (fun e => negb (isCleanup e)) someEvents = true
  /\ waiting k = 1
  /\ waiting (mountSteps k someEvents) = waiting k.
Proof.
  cbv zeta.
  assert (H1 : forallb (fun e => negb (isCleanup e)) someEvents = true) by reflexivity.
  split; [exact H1|]. split; [reflexivity|].
  exact (proj2 (callbacks_never_pile_up someEvents
                  (fst (setup (Some 3) grantingCamera openFrame justMounted))) H1).
Defined.

Lemma startWebcam_outcome_witness :
  getUserMedia grantingCamera = Some (inr [7; 8])
  /\ videoRef (page justMounted) = Some (mkVideo 0 None)
  /\ tracksOf (page (fst (startWebcam grantingCamera openFrame justMounted))) = [7; 8].
Proof.
  assert (H1 : getUserMedia grantingCamera = Some (inr [7; 8])) by reflexivity.
  assert (H2 : videoRef (page justMounted) = Some (mkVideo 0 None)) by reflexivity.
  split; [exact H1|]. split; [exact H2|].
  exact (proj2 (proj2 (proj2 (startWebcam_outcome grantingCamera openFrame justMounted)))
               [7; 8] (mkVideo 0 None) H1 H2).
Defined.

Lemma startWebcam_versions_witness :
  (getUserMedia grantingCamera = Some (inr [7; 8])
   /\ videoRef (page justMounted) = Some (mkVideo 0 None)
   /\ play grantingCamera = None /\ 2 <= loaded grantingCamera)
  /\ calls (page (fst (startWebcam grantingCamera openFrame justMounted)))
     = S (calls (page justMounted))
  /\ loadeddataListeners (fst (startWebcam grantingCamera openFrame justMounted))
     = loadeddataListeners justMounted
  /\ calls (page (fst (startWebcam_v2 grantingCamera justMounted)))
     = calls (page justMounted)
  /\ loadeddataListeners (fst (startWebcam_v2 grantingCamera justMounted))
     = S (loadeddataListeners justMounted).
Proof.
  assert (H1 : getUserMedia grantingCamera = Some (inr [7; 8])) by reflexivity.
  assert (H2 : videoRef (page justMounted) = Some (mkVideo 0 None)) by reflexivity.
  assert (H3 : play grantingCamera = None) by reflexivity.
  assert (H4 : 2 <= loaded grantingCamera) by (vm_compute; lia).
  split; [repeat split; assumption|].
  exact (proj2 (proj2 (startWebcam_versions grantingCamera openFrame justMounted))
               [7; 8] (mkVideo 0 None) H1 H2 H3 H4).
Defined.

(** The camera is refused: the text is not Ready and [predictWebcam] is
    never called. *)
Lemma setup_starts_at_most_one_loop_witness :
  (waiting justMounted = 0 /\ handLandmarkerRef (page justMounted) = None)
  /\ snd (setup (Some 3) refusingCamera openFrame justMounted) = [PleaseAllowCameraAccess]
  /\ waiting (mountSteps (fst (setup (Some 3) refusingCamera openFrame justMounted))
                         someEvents) <= 1
  /\ (In ReadyShowYourHand (snd (setup (Some 3) refusingCamera openFrame justMounted))
      <-> waiting (fst (setup (Some 3) refusingCamera openFrame justMounted)) = 1)
  /\ (~ In ReadyShowYourHand (snd (setup (Some 3) refusingCamera openFrame justMounted)) ->
      calls (page (mountSteps (fst (setup (Some 3) refusingCamera openFrame justMounted))
                              someEvents))
      = calls (page justMounted)).
Proof.
  assert (H1 : waiting justMounted = 0) by reflexivity.
  assert (H2 : handLandmarkerRef (page justMounted) = None) by reflexivity.
  split; [split; assumption|]. split; [reflexivity|].
  exact (setup_starts_at_most_one_loop (Some 3) refusingCamera openFrame justMounted
           someEvents H1 H2).
Defined.

Lemma setup_runs_once_witness :
  handLandmarkerRef (page justMounted) = None
  /\ setup None grantingCamera closedFrame
           (fst (setup (Some 3) refusingCamera openFrame justMounted))
     = (fst (setup (Some 3) refusingCamera openFrame justMounted), []).
Proof.
  assert (H1 : handLandmarkerRef (page justMounted) = None) by reflexivity.
  split; [exact H1|].
  exact (setup_runs_once 3 refusingCamera openFrame justMounted None grantingCamera
           closedFrame H1).
Defined.

Lemma unmount_closes_the_landmarker_only_witness :
  (handLandmarkerRef (page justMounted) = None
   /\ videoRef (page justMounted) = Some (mkVideo 0 None)
   /\ getUserMedia grantingCamera = Some (inr [7; 8])
   /\ forallb (fun e => negb (isCleanup e)) someEvents = true)
  /\ let before := page (mountSteps
                           (fst (setup (Some 3) grantingCamera openFrame justMounted))
                           someEvents) in
     tracksOf before = [7; 8]
     /\ filter isResourceRelease (snd (unmount before)) = [closeLandmarker 3]
     /\ (forall t, ~ In (stopTrack t) (snd (unmount before)))
     /\ handLandmarkerRef (fst (unmount before)) = None.
Proof.
  assert (H1 : handLandmarkerRef (page justMounted) = None) by reflexivity.
  assert (H2 : videoRef (page justMounted) = Some (mkVideo 0 None)) by reflexivity.
  assert (H3 : getUserMedia grantingCamera = Some (inr [7; 8])) by reflexivity.
  assert (H4 : forallb (fun e => negb (isCleanup e)) someEvents = true) by reflexivity.
  split; [repeat split; assumption|].
  exact (unmount_closes_the_landmarker_only 3 grantingCamera openFrame justMounted
           someEvents [7; 8] (mkVideo 0 None) H1 H2 H3 H4).
Defined.

Lemma photos_are_never_lost_witness :
  let read := fun file : nat => if file =? 0 then None else Some "data:image"%string in
  hasPhotos ["data:image"%string] = true
  /\ hasPhotos (fold_left (uploadedPhotosAfter read) [Some [1; 0]; None; Some []; Some [2; 3]]
                          ["data:image"%string]) = true.
Proof.
  cbv zeta.
  assert (H1 : hasPhotos ["data:image"%string] = true) by reflexivity.
  split; [exact H1|].
  exact (photos_are_never_lost _ [Some [1; 0]; None; Some []; Some [2; 3]]
           ["data:image"%string] H1).
Defined.

(** A frame that is requested when the cleanup runs is cancelled, and with
    no timeout pending nothing calls [predictWebcam] any more. *)
Theorem requested_frame_is_cancelled {num : Type} `{Number num} (p : Page) (h : nat)
        (evs : list (Event (num:=num))) :
  animationFrameIdRef p = Some (S h) -> animationFrames p = [S h] -> timeouts p = 0 ->
  calls (steps (fst (cleanup p)) evs) = calls p
  /\ animationFrames (steps (fst (cleanup p)) evs) = []
  /\ timeouts (steps (fst (cleanup p)) evs) = 0.
Proof.
  intros Hid Hf Ht.
  split; [exact (cleanup_cancels_requested_frame p h evs Hid Hf Ht)|].
  assert (I : forall (es : list (Event (num:=num))) q,
             animationFrames q = [] -> timeouts q = 0 ->
             animationFrames (steps q es) = [] /\ timeouts (steps q es) = 0).
  { induction es as [|e es IH]; intros q Hq Hqt; [split; assumption|].
    unfold steps in *. cbn [fold_left].
    destruct e as [| results |]; cbn [step].
    - rewrite Hqt. now apply IH.
    - rewrite Hq. now apply IH.
    - destruct (cleanup_fields q) as (_ & _ & _ & T & L).
      apply IH; [|lia]. rewrite Hq in L. cbn [length] in L.
      destruct (animationFrames (fst (cleanup q))); [reflexivity | cbn [length] in L; lia]. }
  apply I.
  - unfold cleanup. rewrite Hid, Hf. cbn [remove].
    destruct (Nat.eq_dec (S h) (S h)); [|congruence].
    destruct (handLandmarkerRef p); destruct (stopStream (videoRef p)); reflexivity.
  - destruct (cleanup_fields p) as (_ & _ & _ & T & _). lia.
Qed.

Lemma requested_frame_is_cancelled_witness :
  (animationFrameIdRef frameRequested = Some 1 /\ animationFrames frameRequested = [1]
   /\ timeouts frameRequested = 0)
  /\ calls (steps (fst (cleanup frameRequested))
                  [timeoutFires; animationFrameFires openFrame; animationFrameFires Throws])
     = calls frameRequested
  /\ animationFrames (steps (fst (cleanup frameRequested))
                  [timeoutFires; animationFrameFires openFrame; animationFrameFires Throws])
     = []
  /\ timeouts (steps (fst (cleanup frameRequested))
                  [timeoutFires; animationFrameFires openFrame; animationFrameFires Throws])
     = 0.
Proof.
  assert (H1 : animationFrameIdRef frameRequested = Some 1) by reflexivity.
  assert (H2 : animationFrames frameRequested = [1]) by reflexivity.
  assert (H3 : timeouts frameRequested = 0) by reflexivity.
  split; [repeat split; assumption|].
  exact (requested_frame_is_cancelled frameRequested 0
           [timeoutFires; animationFrameFires openFrame; animationFrameFires Throws]
           H1 H2 H3).
Defined.
